(** * dub-cli: the resilient request engine of [internal/api]

    A shallow embedding of [internal/api/client.go] (circuit breaker and
    retry loop) and [internal/api/errors.go] (error classifier), followed
    by the properties established about them.

    Conventions.
    - Go's [int], [int64] and [time.Duration] are 64-bit two's-complement
      integers: they are values of [Z] and every arithmetic result goes
      through [wrap64].
    - A [time.Time] is an instant counted in nanoseconds (a [Z]); the clock
      readings that the code obtains from [time.Now] / [time.Since] are
      supplied by the environment.
    - Go strings and byte slices are sequences of bytes: [string]. *)

From Stdlib Require Import ZArith List String Ascii Bool Lia.
Import ListNotations.
Local Open Scope Z_scope.

(* ------------------------------------------------------------------ *)
(** ** Machine integers and durations *)

Definition int64_min : Z := - 2 ^ 63.
Definition int64_max : Z := 2 ^ 63 - 1.

(** Two's-complement reduction to 64 bits. *)
Definition wrap64 (z : Z) : Z := (z + 2 ^ 63) mod 2 ^ 64 - 2 ^ 63.

Definition in_int64 (z : Z) : Prop := int64_min <= z <= int64_max.

(** [x++] on an [int]. *)
Definition incr (x : Z) : Z := wrap64 (x + 1).

Definition Nanosecond : Z := 1.
Definition Second : Z := 1000000000 * Nanosecond.

(** [t.Sub(u)]: the difference of two instants as a [time.Duration],
    saturating at the largest and smallest representable duration. *)
Definition time_Sub (t u : Z) : Z :=
  if int64_max <? t - u then int64_max
  else if t - u <? int64_min then int64_min
  else t - u.

(** [time.Since(t)] when the clock reads [now]. *)
Definition time_Since (now t : Z) : Z := time_Sub now t.

(** [time.Time{}], the zero instant (January 1, year 1, 00:00 UTC), on the
    scale whose origin is the Unix epoch. *)
Definition time_zero : Z := -62135596800 * Second.

(* ------------------------------------------------------------------ *)
(** ** Constants of [client.go] *)

Definition MaxRateLimitRetries : Z := 3.
Definition RateLimitBaseDelay : Z := 1 * Second.
Definition Max5xxRetries : Z := 1.
Definition ServerErrorRetryDelay : Z := 1 * Second.
Definition CircuitBreakerThreshold : Z := 5.
Definition CircuitBreakerCooldown : Z := 30 * Second.

(* ------------------------------------------------------------------ *)
(** ** Circuit breaker *)

Inductive CircuitState : Type :=
| CircuitClosed
| CircuitOpen
| CircuitHalfOpen.

Definition CircuitState_eqb (a b : CircuitState) : bool :=
  match a, b with
  | CircuitClosed, CircuitClosed
  | CircuitOpen, CircuitOpen
  | CircuitHalfOpen, CircuitHalfOpen => true
  | _, _ => false
  end.

Inductive error : Type :=
| ErrCircuitOpen
| ErrTransport (msg : string)
| ErrReplayBody (cause : string)
| ErrContext (msg : string).

(** The circuit-breaker fields of [Client].  The mutex [cbMu] has no
    counterpart: every operation below is one critical section and is
    modelled as one atomic function of the fields.  [baseURL], [apiKey]
    and [httpClient] are not read by the breaker or by the retry loop. *)
Record Client : Type := mkClient {
  cbState : CircuitState;
  cbConsecutive5xx : Z;
  cbOpenedAt : Z;
  cbCooldown : Z;
  cbThreshold : Z;
  cbHalfOpenInFlight : bool
}.

Definition NewClient : Client :=
  {| cbState := CircuitClosed;
     cbConsecutive5xx := 0;
     cbOpenedAt := time_zero;
     cbCooldown := CircuitBreakerCooldown;
     cbThreshold := CircuitBreakerThreshold;
     cbHalfOpenInFlight := false |}.

Definition set_cbState (s : CircuitState) (c : Client) : Client :=
  mkClient s (cbConsecutive5xx c) (cbOpenedAt c) (cbCooldown c)
           (cbThreshold c) (cbHalfOpenInFlight c).

Definition set_cbConsecutive5xx (n : Z) (c : Client) : Client :=
  mkClient (cbState c) n (cbOpenedAt c) (cbCooldown c)
           (cbThreshold c) (cbHalfOpenInFlight c).

Definition set_cbOpenedAt (t : Z) (c : Client) : Client :=
  mkClient (cbState c) (cbConsecutive5xx c) t (cbCooldown c)
           (cbThreshold c) (cbHalfOpenInFlight c).

Definition set_cbHalfOpenInFlight (b : bool) (c : Client) : Client :=
  mkClient (cbState c) (cbConsecutive5xx c) (cbOpenedAt c) (cbCooldown c)
           (cbThreshold c) b.

(** [checkCircuitBreaker]: the permission check.  [now] is the clock
    reading used by [time.Since].  Returns the updated fields and [None]
    when the request is allowed. *)
Definition checkCircuitBreaker (now : Z) (c : Client) : Client * option error :=
  match cbState c with
  | CircuitClosed => (c, None)
  | CircuitOpen =>
      if cbCooldown c <=? time_Since now (cbOpenedAt c)
      then (set_cbState CircuitHalfOpen c, None)
      else (c, Some ErrCircuitOpen)
  | CircuitHalfOpen =>
      if cbHalfOpenInFlight c
      then (c, Some ErrCircuitOpen)
      else (set_cbHalfOpenInFlight true c, None)
  end.

(** [recordSuccess]. *)
Definition recordSuccess (c : Client) : Client :=
  set_cbHalfOpenInFlight false
    (set_cbConsecutive5xx 0
       (set_cbState CircuitClosed c)).

(** [record5xxError]; [now] is the value of [time.Now()]. *)
Definition record5xxError (now : Z) (c : Client) : Client :=
  let c1 := set_cbConsecutive5xx (incr (cbConsecutive5xx c)) c in
  let c2 := set_cbHalfOpenInFlight false c1 in
  match cbState c2 with
  | CircuitHalfOpen =>
      set_cbOpenedAt now (set_cbState CircuitOpen c2)
  | _ =>
      if cbThreshold c2 <=? cbConsecutive5xx c2
      then set_cbOpenedAt now (set_cbState CircuitOpen c2)
      else c2
  end.

Definition CircuitBreakerState (c : Client) : CircuitState := cbState c.

Definition ResetCircuitBreaker (c : Client) : Client :=
  set_cbHalfOpenInFlight false
    (set_cbOpenedAt time_zero
       (set_cbConsecutive5xx 0
          (set_cbState CircuitClosed c))).

(** The breaker after a run of server-error outcomes reported at the clock
    readings [ts], oldest first. *)
Definition record5xxErrors (ts : list Z) (c : Client) : Client :=
  fold_left (fun acc t => record5xxError t acc) ts c.

(** *** The breaker shared by concurrent callers

    Callers interleave at the granularity of the critical sections.  An
    event is one critical section, or the end of an attempt that reports
    nothing to the breaker (a 429, a transport error, a status outside
    the handled bands).  [inFlight] counts the attempts that passed the
    permission check and have not ended yet. *)
Inductive Event : Type :=
| EvCheck (now : Z)
| EvSuccess
| Ev5xx (now : Z)
| EvUnreported.

Record Shared : Type := mkShared {
  breaker : Client;
  inFlight : nat
}.

Definition handle (s : Shared) (e : Event) : Shared :=
  match e with
  | EvCheck now =>
      match checkCircuitBreaker now (breaker s) with
      | (c, None) => mkShared c (S (inFlight s))
      | (c, Some _) => mkShared c (inFlight s)
      end
  | EvSuccess => mkShared (recordSuccess (breaker s)) (Nat.pred (inFlight s))
  | Ev5xx now => mkShared (record5xxError now (breaker s)) (Nat.pred (inFlight s))
  | EvUnreported => mkShared (breaker s) (Nat.pred (inFlight s))
  end.

Definition run_events (es : list Event) (s : Shared) : Shared :=
  fold_left handle es s.

(* ------------------------------------------------------------------ *)
(** ** Library calls made by the retry loop *)

(** Decimal digits of [strconv.Atoi], most significant first. *)
Fixpoint parse_digits (s : string) (acc : Z) : option Z :=
  match s with
  | EmptyString => Some acc
  | String ch rest =>
      let d := Z.of_nat (nat_of_ascii ch) - 48 in
      if (0 <=? d) && (d <=? 9)
      then parse_digits rest (acc * 10 + d)
      else None
  end.

(** [strconv.Atoi] on a 64-bit platform: an optional sign, at least one
    decimal digit, nothing else, and a value that fits an [int];
    [None] stands for a non-nil error. *)
Definition Atoi (s : string) : option Z :=
  match s with
  | EmptyString => None
  | String ch rest =>
      let '(neg, digits) :=
        if Ascii.eqb ch "-"%char then (true, rest)
        else if Ascii.eqb ch "+"%char then (false, rest)
        else (false, s) in
      match digits with
      | EmptyString => None
      | _ =>
          match parse_digits digits 0 with
          | None => None
          | Some n =>
              let v := if neg then - n else n in
              if (int64_min <=? v) && (v <=? int64_max) then Some v else None
          end
      end
  end.

(** [mathrand.Int63n(n)]: panics ([None]) unless [0 < n]; otherwise a
    value of [[0, n)] determined by the generator, whose contribution is
    the draw [draw]. *)
Definition Int63n (draw n : Z) : option Z :=
  if n <=? 0 then None else Some (draw mod n).

(** [1 << k] at type [time.Duration]. *)
Definition shl1 (k : Z) : Z := wrap64 (Z.shiftl 1 k).

(* ------------------------------------------------------------------ *)
(** ** The retry loop [doWithRetry] *)

Record Request : Type := mkRequest {
  Method : string;
  (** [req.GetBody != nil] *)
  hasGetBody : bool
}.

Record Response : Type := mkResponse {
  StatusCode : Z;
  (** [resp.Header.Get("Retry-After")], empty when the header is absent *)
  RetryAfter : string;
  Body : string
}.

(** What the surroundings contribute to one pass through the loop body. *)
Record Attempt : Type := mkAttempt {
  (** clock reading inside [checkCircuitBreaker] *)
  now_check : Z;
  (** [c.httpClient.Do(req)]: an error or a response *)
  transport : string + Response;
  (** [time.Now()] inside [record5xxError] *)
  now_record : Z;
  (** generator draw consumed by [mathrand.Int63n] *)
  rand_draw : Z;
  (** the error of [req.GetBody()], when it is called and fails *)
  getBody_err : option string;
  (** [Some e]: the [select] takes [<-ctx.Done()] and [ctx.Err()] is [e];
      [None]: it takes the timer *)
  ctx_done : option string
}.

(** Local variables of [doWithRetry], the breaker, and two observations:
    the number of calls to [httpClient.Do] and the durations handed to
    [time.After], most recent first. *)
Record LoopState : Type := mkLoopState {
  client : Client;
  retries429 : Z;
  retries5xx : Z;
  calls : nat;
  waits : list Z
}.

Definition set_client (c : Client) (st : LoopState) : LoopState :=
  mkLoopState c (retries429 st) (retries5xx st) (calls st) (waits st).

Definition count_call (st : LoopState) : LoopState :=
  mkLoopState (client st) (retries429 st) (retries5xx st) (S (calls st)) (waits st).

Definition log_wait (d : Z) (st : LoopState) : LoopState :=
  mkLoopState (client st) (retries429 st) (retries5xx st) (calls st) (d :: waits st).

Definition incr_retries429 (st : LoopState) : LoopState :=
  mkLoopState (client st) (incr (retries429 st)) (retries5xx st) (calls st) (waits st).

Definition incr_retries5xx (st : LoopState) : LoopState :=
  mkLoopState (client st) (retries429 st) (incr (retries5xx st)) (calls st) (waits st).

Inductive StepResult : Type :=
| Return (resp : option Response) (err : option error) (st : LoopState)
| Continue (st : LoopState)
| Panic.

Definition isIdempotent (req : Request) : bool :=
  String.eqb (Method req) "GET" || String.eqb (Method req) "HEAD"
  || String.eqb (Method req) "OPTIONS".

(** The delay computed in the 429 branch at [retries429 = k]:
    exponential backoff with jitter, replaced by the [Retry-After] value
    when that header is a number.  [None] is a run-time panic. *)
Definition rateLimitDelay (k draw : Z) (retryAfter : string) : option Z :=
  if k <? 0 then None else
  let baseDelay := wrap64 (RateLimitBaseDelay * shl1 k) in
  match Int63n draw (Z.quot baseDelay 2) with
  | None => None
  | Some jitter =>
      let delay := wrap64 (baseDelay + jitter) in
      Some (if String.eqb retryAfter "" then delay
            else match Atoi retryAfter with
                 | Some seconds => wrap64 (seconds * Second)
                 | None => delay
                 end)
  end.

(** The error of replaying the request body: [req.GetBody] is called only
    when it is non-nil. *)
Definition replay_error (req : Request) (a : Attempt) : option string :=
  if hasGetBody req then getBody_err a else None.

(** The tail shared by both retry branches: replay the body, then wait
    [delay] unless the context ends first; [next] is the counter update
    before [continue]. *)
Definition replay_and_wait (req : Request) (a : Attempt) (delay : Z)
    (next : LoopState -> LoopState) (st : LoopState) : StepResult :=
  match replay_error req a with
  | Some e => Return None (Some (ErrReplayBody e)) st
  | None =>
      match ctx_done a with
      | Some e => Return None (Some (ErrContext e)) (log_wait delay st)
      | None => Continue (next (log_wait delay st))
      end
  end.

(** How a response is dispatched on its status code. *)
Definition handleResponse (req : Request) (a : Attempt) (resp : Response)
    (st : LoopState) : StepResult :=
  let code := StatusCode resp in
  if (200 <=? code) && (code <? 300) then
    Return (Some resp) None (set_client (recordSuccess (client st)) st)
  else if (400 <=? code) && (code <? 500) && negb (code =? 429) then
    Return (Some resp) None (set_client (recordSuccess (client st)) st)
  else if code =? 429 then
    if MaxRateLimitRetries <=? retries429 st then Return (Some resp) None st
    else
      match rateLimitDelay (retries429 st) (rand_draw a) (RetryAfter resp) with
      | None => Panic
      | Some delay => replay_and_wait req a delay incr_retries429 st
      end
  else if 500 <=? code then
    let st' := set_client (record5xxError (now_record a) (client st)) st in
    if negb (isIdempotent req) || (Max5xxRetries <=? retries5xx st')
    then Return (Some resp) None st'
    else replay_and_wait req a ServerErrorRetryDelay incr_retries5xx st'
  else Return (Some resp) None st.

(** One pass through the body of the [for] loop. *)
Definition iteration (req : Request) (a : Attempt) (st : LoopState) : StepResult :=
  match checkCircuitBreaker (now_check a) (client st) with
  | (c, Some e) => Return None (Some e) (set_client c st)
  | (c, None) =>
      let st1 := count_call (set_client c st) in
      match transport a with
      | inl msg => Return None (Some (ErrTransport msg)) st1
      | inr resp => handleResponse req a resp st1
      end
  end.

(** The loop state a pass ends in, when it does not panic. *)
Definition result_state (r : StepResult) : option LoopState :=
  match r with
  | Return _ _ st => Some st
  | Continue st => Some st
  | Panic => None
  end.

Inductive Outcome : Type :=
| Returned (resp : option Response) (err : option error) (st : LoopState)
| Panicked.

(** The [for] loop against a script of attempts; [None] when the script
    ends before the loop does. *)
Fixpoint loop (req : Request) (env : list Attempt) (st : LoopState)
    : option Outcome :=
  match env with
  | [] => None
  | a :: env' =>
      match iteration req a st with
      | Return resp err st' => Some (Returned resp err st')
      | Continue st' => loop req env' st'
      | Panic => Some Panicked
      end
  end.

Definition initLoop (c : Client) : LoopState :=
  {| client := c; retries429 := 0; retries5xx := 0; calls := 0; waits := [] |}.

Definition doWithRetry (c : Client) (req : Request) (env : list Attempt)
    : option Outcome :=
  loop req env (initLoop c).

(** An attempt answered with status 429. *)
Definition rate_limited (a : Attempt) : Prop :=
  exists resp : Response, transport a = inr resp /\ StatusCode resp = 429.

(** An attempt whose retry tail meets neither a body-replay error nor the
    end of the context. *)
Definition uninterrupted (req : Request) (a : Attempt) : Prop :=
  replay_error req a = None /\ ctx_done a = None.

(* ------------------------------------------------------------------ *)
(** ** The error classifier of [errors.go] *)

Record APIError : Type := mkAPIError {
  Code : string;
  Message : string;
  DocURL : string
}.

Record errorResponse : Type := mkErrorResponse {
  Error : APIError
}.

(** A string given by its bytes. *)
Definition bytes (l : list nat) : string :=
  fold_right (fun n s => String (ascii_of_nat n) s) EmptyString l.

Definition rev_string (s : string) : string :=
  string_of_list_ascii (rev (list_ascii_of_string s)).

(** UTF-8 encodings of the code points for which [unicode.IsSpace] holds:
    the six ASCII ones, U+0085, U+00A0, U+1680, U+2000..U+200A, U+2028,
    U+2029, U+202F, U+205F and U+3000. *)
Definition unicode_spaces : list string :=
  map bytes
    ([ [9]; [10]; [11]; [12]; [13]; [32];
      [194; 133]; [194; 160]; [225; 154; 128];
      [226; 128; 128]; [226; 128; 129]; [226; 128; 130]; [226; 128; 131];
      [226; 128; 132]; [226; 128; 133]; [226; 128; 134]; [226; 128; 135];
      [226; 128; 136]; [226; 128; 137]; [226; 128; 138];
      [226; 128; 168]; [226; 128; 169]; [226; 128; 175];
      [226; 129; 159]; [227; 128; 128] ])%nat.

(** [strings.HasPrefix(s, p)]. *)
Definition HasPrefix (s p : string) : bool := String.prefix p s.

Definition drop (n : nat) (s : string) : string :=
  String.substring n (String.length s - n) s.

(** Removes one leading white-space rune, trying the encodings [pats]. *)
Fixpoint strip_space (pats : list string) (s : string) : option string :=
  match pats with
  | [] => None
  | p :: pats' =>
      if HasPrefix s p then Some (drop (String.length p) s)
      else strip_space pats' s
  end.

Fixpoint trim_from_front (fuel : nat) (pats : list string) (s : string) : string :=
  match fuel with
  | O => s
  | S fuel' =>
      match strip_space pats s with
      | Some s' => trim_from_front fuel' pats s'
      | None => s
      end
  end.

Definition TrimLeftSpace (s : string) : string :=
  trim_from_front (String.length s) unicode_spaces s.

Definition TrimRightSpace (s : string) : string :=
  rev_string
    (trim_from_front (String.length s) (map rev_string unicode_spaces)
       (rev_string s)).

(** [strings.TrimSpace]: all leading and trailing white space removed. *)
Definition TrimSpace (s : string) : string :=
  TrimRightSpace (TrimLeftSpace s).

(** White space between JSON tokens. *)
Definition json_isSpace (ch : ascii) : bool :=
  let n := nat_of_ascii ch in
  (n =? 32)%nat || (n =? 9)%nat || (n =? 13)%nat || (n =? 10)%nat.

(** Bytes that can begin a JSON value: an opening brace or bracket, a
    double quote, a minus sign, a digit, and the first letters of [true],
    [false] and [null]. *)
Definition json_beginsValue (ch : ascii) : bool :=
  let n := nat_of_ascii ch in
  (n =? 123)%nat || (n =? 91)%nat || (n =? 34)%nat || (n =? 45)%nat
  || ((48 <=? n)%nat && (n <=? 57)%nat)
  || (n =? 116)%nat || (n =? 102)%nat || (n =? 110)%nat.

Fixpoint json_skipSpace (s : string) : string :=
  match s with
  | String ch rest => if json_isSpace ch then json_skipSpace rest else s
  | EmptyString => s
  end.

(** The error synthesized for an HTML page. *)
Definition notFoundError : APIError :=
  {| Code := "not_found";
     Message := "Resource not found or endpoint does not exist";
     DocURL := "" |}.

Section Classifier.

(** What [encoding/json] makes of a body that begins like a JSON value:
    the decoded envelope, or [None] for a non-nil error. *)
Variable decodeEnvelope : string -> option errorResponse.

(** [json.Unmarshal(body, &resp)]: an input that is empty, all white
    space, or whose first significant byte cannot begin a value is a
    syntax error; every other input is left to [decodeEnvelope]. *)
Definition json_Unmarshal (body : string) : option errorResponse :=
  match json_skipSpace body with
  | EmptyString => None
  | String ch _ => if json_beginsValue ch then decodeEnvelope body else None
  end.

(** The test of [ParseAPIError] for a body that is an HTML page. *)
Definition looksLikeHTML (bodyStr : string) : bool :=
  match bodyStr with
  | EmptyString => false
  | String ch _ =>
      Ascii.eqb ch "<"%char || HasPrefix (TrimSpace bodyStr) "<!"
  end.

(** [ParseAPIError]; the result is a pointer, [None] being [nil]. *)
Definition ParseAPIError (body : string) : option APIError :=
  match json_Unmarshal body with
  | None =>
      let bodyStr := body in
      if looksLikeHTML bodyStr
      then Some notFoundError
      else Some {| Code := ""; Message := bodyStr; DocURL := "" |}
  | Some resp => Some (Error resp)
  end.

End Classifier.

(* ------------------------------------------------------------------ *)
(** ** Sample inputs *)

Definition get_request : Request := mkRequest "GET" false.

Definition response_with (status : Z) (retryAfter : string) : Response :=
  mkResponse status retryAfter "".

(** An attempt answered with [status], at clock reading [now], whose
    backoff wait runs to completion. *)
Definition answered (now status : Z) (retryAfter : string) : Attempt :=
  {| now_check := now;
     transport := inr (response_with status retryAfter);
     now_record := now;
     rand_draw := 0;
     getBody_err := None;
     ctx_done := None |}.

(** Four attempts, each answered 429, the last with a [Retry-After]. *)
Definition four_rate_limits : list Attempt :=
  [answered 0 429 ""; answered 1 429 ""; answered 3 429 ""; answered 7 429 "5"].

(** Two attempts, each answered 500. *)
Definition two_server_errors : list Attempt :=
  [answered 0 500 ""; answered 0 500 ""].

(** An HTML page served with a leading blank. *)
Definition indented_page : string := " <!DOCTYPE html>".

(* ------------------------------------------------------------------ *)
(** ** Further functions of [client.go]: the breaker as a whole *)

(** The four operations that write the breaker fields. *)
Inductive BreakerOp : Type :=
| OpCheck (now : Z)
| OpSuccess
| Op5xx (now : Z)
| OpReset.

Definition apply_op (c : Client) (o : BreakerOp) : Client :=
  match o with
  | OpCheck now => fst (checkCircuitBreaker now c)
  | OpSuccess => recordSuccess c
  | Op5xx now => record5xxError now c
  | OpReset => ResetCircuitBreaker c
  end.

Definition apply_ops (os : list BreakerOp) (c : Client) : Client :=
  fold_left apply_op os c.

(** Retries a call may still make. *)
Definition retry_budget (st : LoopState) : nat :=
  Z.to_nat (MaxRateLimitRetries - retries429 st)
  + Z.to_nat (Max5xxRetries - retries5xx st).

(** The sum of the durations handed to [time.After]. *)
Definition total_wait (st : LoopState) : Z := fold_right Z.add 0 (waits st).

(** An attempt whose response, if it has one, carries no [Retry-After]. *)
Definition no_retry_after (a : Attempt) : Prop :=
  forall resp : Response, transport a = inr resp -> RetryAfter resp = ""%string.

(** The breaker a call leaves behind; a script that ends too early leaves
    the breaker it found. *)
Definition client_after (c : Client) (o : option Outcome) : Client :=
  match o with
  | Some (Returned _ _ st) => client st
  | _ => c
  end.

(* ------------------------------------------------------------------ *)
(** ** Request identifiers *)

Definition hextable : string := "0123456789abcdef".

Definition hexchar (n : nat) : ascii :=
  match String.get n hextable with
  | Some ch => ch
  | None => Ascii.zero
  end.

(** [hex.EncodeToString]: two digits per byte, high nibble first. *)
Fixpoint hex_EncodeToString (src : string) : string :=
  match src with
  | EmptyString => EmptyString
  | String v rest =>
      String (hexchar (nat_of_ascii v / 16))
        (String (hexchar (nat_of_ascii v mod 16)) (hex_EncodeToString rest))
  end.

(** [generateRequestID]; [b0 .. b3] are the bytes of the buffer after
    [rand.Read]. *)
Definition generateRequestID (b0 b1 b2 b3 : ascii) : string :=
  hex_EncodeToString (String b0 (String b1 (String b2 (String b3 EmptyString)))).

(** The value of a hexadecimal digit of [hextable]. *)
Definition hexval (ch : ascii) : nat :=
  let n := nat_of_ascii ch in
  if (n <? 58)%nat then (n - 48)%nat else (n - 87)%nat.

(* ------------------------------------------------------------------ *)
(** ** Error texts of [errors.go] *)

(** The [Error] method of [APIError]. *)
Definition APIError_Error (e : APIError) : string :=
  if negb (String.eqb (Code e) "")
  then (Code e ++ ": " ++ Message e)%string
  else Message e.

(* ------------------------------------------------------------------ *)
(** ** Credential keys of [secrets/store.go] *)

(** [strings.TrimPrefix]. *)
Definition TrimPrefix (s p : string) : string :=
  if HasPrefix s p then drop (String.length p) s else s.

Definition credentialPrefix : string := "workspace:".

Definition ParseCredentialKey (k : string) : string * bool :=
  if negb (HasPrefix k credentialPrefix) then (EmptyString, false)
  else
    let rest := TrimPrefix k credentialPrefix in
    if String.eqb (TrimSpace rest) "" then (EmptyString, false)
    else (rest, true).

Definition credentialKey (name : string) : string :=
  (credentialPrefix ++ name)%string.

(* ------------------------------------------------------------------ *)
(** ** Credential resolution of [cmd/client.go] *)










(* ------------------------------------------------------------------ *)
(** ** Loop invariants and sequences of calls *)

(** What holds of the local state of [doWithRetry] at the head of the loop:
    both counters within their ceilings, and one transport call and one
    completed wait behind every retry. *)
Definition at_loop_head (st : LoopState) : Prop :=
  0 <= retries429 st <= MaxRateLimitRetries /\
  0 <= retries5xx st <= Max5xxRetries /\
  Z.of_nat (calls st) = retries429 st + retries5xx st /\
  Z.of_nat (List.length (waits st)) = retries429 st + retries5xx st.

(** What holds when [doWithRetry] returns. *)
Definition at_return (resp : option Response) (err : option error)
    (st : LoopState) : Prop :=
  0 <= retries429 st <= MaxRateLimitRetries /\
  0 <= retries5xx st <= Max5xxRetries /\
  (resp = None <-> err <> None) /\
  Z.of_nat (calls st) =
    retries429 st + retries5xx st
    + (match err with Some ErrCircuitOpen => 0 | _ => 1 end) /\
  Z.of_nat (List.length (waits st)) =
    retries429 st + retries5xx st
    + (match err with Some (ErrContext _) => 1 | _ => 0 end).

(** The waits behind a call at the head of the loop when no response
    carried a [Retry-After]: none shorter than a second, and in total no
    more than one and a half times the base delays of the rate-limit
    retries made plus the fixed delays of the server-error retries. *)
Definition waits_at_loop_head (st : LoopState) : Prop :=
  at_loop_head st /\
  Forall (fun w => Second <= w) (waits st) /\
  total_wait st <=
    1500000000 * (2 ^ retries429 st - 1) + retries5xx st * Second.

Definition waits_at_return (st : LoopState) : Prop :=
  Forall (fun w => Second <= w) (waits st) /\
  2 * total_wait st <= 23 * Second.

(** What every breaker reached from a new client satisfies: while
    [Closed] the error count is below a positive threshold, and the
    in-flight flag is set only while [HalfOpen]. *)
Definition breaker_ok (c : Client) : Prop :=
  1 <= cbThreshold c <= int64_max /\
  (cbState c = CircuitClosed -> 0 <= cbConsecutive5xx c < cbThreshold c) /\
  (cbHalfOpenInFlight c = true -> cbState c = CircuitHalfOpen).

(** Logical calls made one after the other on the same client. *)
Fixpoint run_calls (c : Client) (cs : list (Request * list Attempt)) : Client :=
  match cs with
  | [] => c
  | (req, env) :: cs' => run_calls (client_after c (doWithRetry c req env)) cs'
  end.

(** A call whose first attempt is answered with a 2xx status or a 4xx
    status other than 429. *)
Definition answered_without_fault (call : Request * list Attempt) : Prop :=
  exists (a : Attempt) (rest : list Attempt) (resp : Response),
    snd call = a :: rest /\ transport a = inr resp /\
    (200 <= StatusCode resp < 300 \/
     (400 <= StatusCode resp < 500 /\ StatusCode resp <> 429)).

(* ================================================================== *)
(** * Properties *)

(* ------------------------------------------------------------------ *)
(** ** Arithmetic and the server-error count *)

Ltac int64_lia := unfold in_int64, int64_min, int64_max in *; lia.

Lemma wrap64_id (z : Z) : in_int64 z -> wrap64 z = z.
Proof.
  unfold in_int64, int64_min, int64_max, wrap64. intros H.
  rewrite Z.mod_small; lia.
Qed.

Lemma incr_no_overflow (x : Z) : int64_min <= x < int64_max -> incr x = x + 1.
Proof.
  intros H. unfold incr. apply wrap64_id. int64_lia.
Qed.

Lemma record5xxErrors_app (l1 l2 : list Z) (c : Client) :
  record5xxErrors (l1 ++ l2) c = record5xxErrors l2 (record5xxErrors l1 c).
Proof. unfold record5xxErrors. apply fold_left_app. Qed.

Lemma firstn_snoc {A} (d : A) (l : list A) (k : nat) :
  (k < List.length l)%nat -> firstn (S k) l = firstn k l ++ [nth k l d].
Proof.
  revert k. induction l as [|x l IH]; intros k Hk; simpl in Hk.
  - lia.
  - destruct k as [|k]; [reflexivity|].
    change (firstn (S (S k)) (x :: l)) with (x :: firstn (S k) l).
    rewrite IH by lia. reflexivity.
Qed.

Lemma record5xxError_below (t : Z) (c : Client) :
  cbState c = CircuitClosed ->
  0 <= cbConsecutive5xx c -> cbConsecutive5xx c + 1 < cbThreshold c ->
  cbThreshold c <= int64_max ->
  record5xxError t c =
    mkClient CircuitClosed (cbConsecutive5xx c + 1) (cbOpenedAt c)
             (cbCooldown c) (cbThreshold c) false.
Proof.
  destruct c as [s n o cd th f]; cbn. intros -> H0 H1 H2.
  unfold record5xxError; cbn.
  rewrite incr_no_overflow by int64_lia.
  destruct (Z.leb_spec th (n + 1)); [lia|reflexivity].
Qed.

Lemma record5xxError_reaches (t : Z) (c : Client) :
  cbState c = CircuitClosed ->
  0 <= cbConsecutive5xx c -> cbConsecutive5xx c + 1 = cbThreshold c ->
  cbThreshold c <= int64_max ->
  record5xxError t c =
    mkClient CircuitOpen (cbThreshold c) t (cbCooldown c) (cbThreshold c) false.
Proof.
  destruct c as [s n o cd th f]; cbn. intros -> H0 H1 H2.
  unfold record5xxError; cbn.
  rewrite incr_no_overflow by int64_lia.
  destruct (Z.leb_spec th (n + 1)); [|lia].
  unfold set_cbOpenedAt, set_cbState; cbn. rewrite H1. reflexivity.
Qed.

Lemma record5xxErrors_below (ts : list Z) : forall c : Client,
  cbState c = CircuitClosed ->
  0 <= cbConsecutive5xx c ->
  cbConsecutive5xx c + Z.of_nat (List.length ts) < cbThreshold c ->
  cbThreshold c <= int64_max ->
  let c' := record5xxErrors ts c in
  cbState c' = CircuitClosed /\
  cbConsecutive5xx c' = cbConsecutive5xx c + Z.of_nat (List.length ts) /\
  cbThreshold c' = cbThreshold c /\
  cbOpenedAt c' = cbOpenedAt c /\
  cbCooldown c' = cbCooldown c.
Proof.
  induction ts as [|t ts IH]; intros c Hs H0 H1 H2.
  - cbn. repeat split; try assumption; try reflexivity; lia.
  - change (record5xxErrors (t :: ts) c)
      with (record5xxErrors ts (record5xxError t c)).
    cbn [List.length] in H1 |- *. rewrite Nat2Z.inj_succ in H1 |- *.
    rewrite (record5xxError_below t c Hs H0) by lia.
    match goal with |- context [record5xxErrors ts ?d] => specialize (IH d) end.
    cbn [cbState cbConsecutive5xx cbThreshold cbOpenedAt cbCooldown] in IH.
    destruct IH as (I1 & I2 & I3 & I4 & I5); try reflexivity; try lia.
    cbv zeta. rewrite I1, I2, I3, I4, I5. repeat split; lia.
Qed.

(** Claim C2.  A [Closed] breaker whose error count is below the threshold
    is given a run of server-error outcomes long enough to reach it.  It
    stays [Closed], counting, after every outcome before the one that
    brings the count to the threshold; after that very outcome it is
    [Open] and [cbOpenedAt] is the clock reading of that outcome. *)
Theorem C2_opens_exactly_at_threshold (c : Client) (ts : list Z) :
  cbState c = CircuitClosed ->
  0 <= cbConsecutive5xx c < cbThreshold c ->
  cbThreshold c <= int64_max ->
  cbThreshold c - cbConsecutive5xx c <= Z.of_nat (List.length ts) ->
  let n := Z.to_nat (cbThreshold c - cbConsecutive5xx c) in
  (forall k : nat, (k < n)%nat ->
     cbState (record5xxErrors (firstn k ts) c) = CircuitClosed /\
     cbConsecutive5xx (record5xxErrors (firstn k ts) c)
       = cbConsecutive5xx c + Z.of_nat k) /\
  cbState (record5xxErrors (firstn n ts) c) = CircuitOpen /\
  cbConsecutive5xx (record5xxErrors (firstn n ts) c) = cbThreshold c /\
  cbOpenedAt (record5xxErrors (firstn n ts) c) = nth (n - 1) ts 0.
Proof.
  intros Hs Hc Ht Hlen n.
  assert (Hbelow : forall k : nat, (k < n)%nat ->
     let c' := record5xxErrors (firstn k ts) c in
     cbState c' = CircuitClosed /\
     cbConsecutive5xx c' = cbConsecutive5xx c + Z.of_nat k /\
     cbThreshold c' = cbThreshold c).
  { intros k Hk.
    assert (Hl : List.length (firstn k ts) = k) by (apply firstn_length_le; lia).
    destruct (record5xxErrors_below (firstn k ts) c Hs) as (I1 & I2 & I3 & _);
      rewrite ?Hl; try lia.
    cbv zeta. rewrite Hl in I2. auto. }
  split.
  - intros k Hk. destruct (Hbelow k Hk) as (I1 & I2 & _). auto.
  - destruct n as [|m] eqn:En; [lia|].
    rewrite (firstn_snoc 0) by lia.
    rewrite record5xxErrors_app.
    destruct (Hbelow m) as (I1 & I2 & I3); [lia|].
    change (record5xxErrors [nth m ts 0] ?d) with (record5xxError (nth m ts 0) d).
    rewrite record5xxError_reaches; rewrite ?I1, ?I2, ?I3; try lia; try reflexivity.
    cbn [cbState cbConsecutive5xx cbOpenedAt].
    replace (S m - 1)%nat with m by lia. auto.
Qed.

Lemma C2_opens_exactly_at_threshold_witness :
  cbState (record5xxErrors (firstn 5 [10; 11; 12; 13; 14; 15]) NewClient)
    = CircuitOpen /\
  cbConsecutive5xx (record5xxErrors (firstn 5 [10; 11; 12; 13; 14; 15]) NewClient)
    = 5 /\
  cbOpenedAt (record5xxErrors (firstn 5 [10; 11; 12; 13; 14; 15]) NewClient)
    = 14.
Proof.
  apply (C2_opens_exactly_at_threshold NewClient [10; 11; 12; 13; 14; 15]);
    [ reflexivity
    | unfold NewClient, CircuitBreakerThreshold; cbn; lia
    | vm_compute; discriminate
    | unfold NewClient, CircuitBreakerThreshold; cbn; lia ].
Defined.

(* ------------------------------------------------------------------ *)
(** ** The permission check *)

Lemma checkCircuitBreaker_error (now : Z) (c : Client) (e : error) :
  snd (checkCircuitBreaker now c) = Some e ->
  e = ErrCircuitOpen /\ fst (checkCircuitBreaker now c) = c.
Proof.
  unfold checkCircuitBreaker.
  destruct (cbState c);
    [ | destruct (cbCooldown c <=? _) | destruct (cbHalfOpenInFlight c) ];
    cbn; intros H; inversion H; auto.
Qed.

Lemma checkCircuitBreaker_closed (now : Z) (c : Client) :
  cbState c = CircuitClosed -> checkCircuitBreaker now c = (c, None).
Proof. unfold checkCircuitBreaker. intros ->. reflexivity. Qed.

Lemma iteration_rejected (req : Request) (a : Attempt) (st : LoopState) (e : error) :
  snd (checkCircuitBreaker (now_check a) (client st)) = Some e ->
  iteration req a st = Return None (Some ErrCircuitOpen) st.
Proof.
  intros H. destruct (checkCircuitBreaker_error _ _ _ H) as [-> Hc].
  unfold iteration.
  destruct (checkCircuitBreaker (now_check a) (client st)) as [c' r].
  cbn in H, Hc. subst. destruct st; reflexivity.
Qed.

Lemma iteration_granted (req : Request) (a : Attempt) (st : LoopState) :
  snd (checkCircuitBreaker (now_check a) (client st)) = None ->
  iteration req a st =
    let st1 := count_call
                 (set_client (fst (checkCircuitBreaker (now_check a) (client st))) st) in
    match transport a with
    | inl msg => Return None (Some (ErrTransport msg)) st1
    | inr resp => handleResponse req a resp st1
    end.
Proof.
  intros H. unfold iteration.
  destruct (checkCircuitBreaker (now_check a) (client st)) as [c' r].
  cbn in H. subst. reflexivity.
Qed.

(** Claim C1 (as the code behaves).  From [Open] with the cooldown
    elapsed, the first permission check is granted and moves the breaker
    to [HalfOpen] but leaves the in-flight flag clear; a second check
    made before the first probe reports anything is therefore granted
    too, and only a third one is rejected.  Two probes are in flight
    while the breaker is [HalfOpen]. *)
Theorem C1_second_probe_admitted (c : Client) (now1 now2 now3 : Z) :
  cbState c = CircuitOpen ->
  cbHalfOpenInFlight c = false ->
  cbCooldown c <= time_Since now1 (cbOpenedAt c) ->
  let c1 := set_cbState CircuitHalfOpen c in
  let c2 := set_cbHalfOpenInFlight true c1 in
  checkCircuitBreaker now1 c = (c1, None) /\
  cbHalfOpenInFlight c1 = false /\
  checkCircuitBreaker now2 c1 = (c2, None) /\
  checkCircuitBreaker now3 c2 = (c2, Some ErrCircuitOpen) /\
  run_events [EvCheck now1; EvCheck now2] (mkShared c 0) = mkShared c2 2 /\
  cbState c2 = CircuitHalfOpen.
Proof.
  intros Hs Hf Hcool c1 c2.
  assert (E1 : checkCircuitBreaker now1 c = (c1, None)).
  { unfold checkCircuitBreaker. rewrite Hs.
    destruct (Z.leb_spec (cbCooldown c) (time_Since now1 (cbOpenedAt c)));
      [reflexivity | lia]. }
  assert (E2 : checkCircuitBreaker now2 c1 = (c2, None)).
  { unfold checkCircuitBreaker, c2, c1. cbn. rewrite Hf. reflexivity. }
  repeat split; auto.
  unfold run_events. cbn [fold_left handle breaker inFlight].
  rewrite E1. cbn [breaker inFlight]. rewrite E2. reflexivity.
Qed.

Lemma C1_second_probe_admitted_witness :
  run_events [EvCheck (30 * Second); EvCheck (30 * Second)]
    (mkShared (mkClient CircuitOpen 5 0 CircuitBreakerCooldown 5 false) 0)
  = mkShared (mkClient CircuitHalfOpen 5 0 CircuitBreakerCooldown 5 true) 2.
Proof.
  apply (C1_second_probe_admitted
           (mkClient CircuitOpen 5 0 CircuitBreakerCooldown 5 false)
           (30 * Second) (30 * Second) 0);
    [reflexivity | reflexivity | vm_compute; discriminate].
Defined.

Lemma handle_flag_only_half_open (s : Shared) (e : Event) :
  (cbHalfOpenInFlight (breaker s) = true -> cbState (breaker s) = CircuitHalfOpen) ->
  cbHalfOpenInFlight (breaker (handle s e)) = true ->
  cbState (breaker (handle s e)) = CircuitHalfOpen.
Proof.
  destruct s as [[st n o cd th f] k]. destruct e as [now| |now|]; cbn.
  - unfold checkCircuitBreaker; cbn.
    destruct st; [ | destruct (cd <=? time_Since now o) | destruct f ]; cbn; auto.
  - discriminate.
  - intros _. unfold record5xxError; cbn.
    destruct st; [destruct (th <=? incr n) | destruct (th <=? incr n) | ];
      cbn; discriminate.
  - auto.
Qed.

(** In every state the shared breaker reaches from a clear flag, the
    in-flight flag is set only while the breaker is [HalfOpen]. *)
Lemma run_events_flag_only_half_open (es : list Event) : forall s : Shared,
  (cbHalfOpenInFlight (breaker s) = true -> cbState (breaker s) = CircuitHalfOpen) ->
  cbHalfOpenInFlight (breaker (run_events es s)) = true ->
  cbState (breaker (run_events es s)) = CircuitHalfOpen.
Proof.
  induction es as [|e es IH]; intros s Hs; [exact Hs|].
  apply (IH (handle s e)). apply handle_flag_only_half_open. exact Hs.
Qed.

(** Claim C3.  The permission check rejects exactly when the breaker is
    [Open] with less than the cooldown elapsed since [cbOpenedAt], or
    [HalfOpen] with a probe in flight; the only error it gives is the
    circuit-open error and a rejecting check changes no field.  When the
    check rejects, the loop returns that error at once and in the state
    it was entered with: no transport call is counted and neither retry
    counter moves. *)
Theorem C3_rejection (now : Z) (c : Client) :
  (snd (checkCircuitBreaker now c) = Some ErrCircuitOpen <->
     (cbState c = CircuitOpen /\ time_Since now (cbOpenedAt c) < cbCooldown c)
     \/ (cbState c = CircuitHalfOpen /\ cbHalfOpenInFlight c = true)) /\
  (forall e : error,
     snd (checkCircuitBreaker now c) = Some e ->
     e = ErrCircuitOpen /\ fst (checkCircuitBreaker now c) = c) /\
  (forall (req : Request) (a : Attempt) (env : list Attempt) (st : LoopState),
     now_check a = now -> client st = c ->
     snd (checkCircuitBreaker now c) = Some ErrCircuitOpen ->
     loop req (a :: env) st = Some (Returned None (Some ErrCircuitOpen) st)).
Proof.
  split; [|split].
  - unfold checkCircuitBreaker.
    destruct (cbState c) eqn:Hs.
    + cbn. split; [discriminate | intros [[H _]|[H _]]; discriminate].
    + destruct (Z.leb_spec (cbCooldown c) (time_Since now (cbOpenedAt c))); cbn.
      * split; [discriminate | intros [[_ H']|[H' _]]; [lia | discriminate]].
      * split; auto.
    + destruct (cbHalfOpenInFlight c); cbn.
      * split; auto.
      * split; [discriminate | intros [[H _]|[_ H]]; discriminate].
  - apply checkCircuitBreaker_error.
  - intros req a env st Hn Hc H. subst now c.
    cbn [loop]. rewrite (iteration_rejected req a st _ H). reflexivity.
Qed.

Lemma C3_rejection_witness :
  loop get_request [answered 0 200 ""]
       (initLoop (mkClient CircuitOpen 5 0 CircuitBreakerCooldown 5 false))
  = Some (Returned None (Some ErrCircuitOpen)
            (initLoop (mkClient CircuitOpen 5 0 CircuitBreakerCooldown 5 false))).
Proof.
  apply (C3_rejection 0 (mkClient CircuitOpen 5 0 CircuitBreakerCooldown 5 false));
    reflexivity.
Defined.

(* ------------------------------------------------------------------ *)
(** ** Outcomes that end an attempt *)

Lemma loop_step (req : Request) (a : Attempt) (env : list Attempt) (st : LoopState) :
  loop req (a :: env) st =
    match iteration req a st with
    | Return resp err st' => Some (Returned resp err st')
    | Continue st' => loop req env st'
    | Panic => Some Panicked
    end.
Proof. reflexivity. Qed.

Lemma handleResponse_success (req : Request) (a : Attempt) (resp : Response)
    (st : LoopState) :
  200 <= StatusCode resp < 300 \/
  (400 <= StatusCode resp < 500 /\ StatusCode resp <> 429) ->
  handleResponse req a resp st =
    Return (Some resp) None (set_client (recordSuccess (client st)) st).
Proof.
  intros H. unfold handleResponse.
  destruct ((200 <=? StatusCode resp) && (StatusCode resp <? 300)) eqn:E1;
    [reflexivity|].
  destruct ((400 <=? StatusCode resp) && (StatusCode resp <? 500)
            && negb (StatusCode resp =? 429)) eqn:E2; [reflexivity|].
  exfalso. destruct H as [H|[H H']].
  - apply andb_false_iff in E1. destruct E1 as [E|E];
      [apply Z.leb_gt in E | apply Z.ltb_ge in E]; lia.
  - apply andb_false_iff in E2. destruct E2 as [E|E].
    + apply andb_false_iff in E. destruct E as [E|E];
        [apply Z.leb_gt in E | apply Z.ltb_ge in E]; lia.
    + apply negb_false_iff, Z.eqb_eq in E. lia.
Qed.

(** Claim C7.  [recordSuccess] leaves the breaker [Closed] with a zero
    error count and a clear in-flight flag whatever it was before, and
    the loop applies it to every response with a 2xx status or a 4xx
    status other than 429, returning that response with a nil error. *)
Theorem C7_success_resets :
  (forall c : Client,
     cbConsecutive5xx (recordSuccess c) = 0 /\
     cbState (recordSuccess c) = CircuitClosed /\
     cbHalfOpenInFlight (recordSuccess c) = false) /\
  (forall (req : Request) (a : Attempt) (env : list Attempt) (st : LoopState)
          (resp : Response),
     transport a = inr resp ->
     200 <= StatusCode resp < 300 \/
     (400 <= StatusCode resp < 500 /\ StatusCode resp <> 429) ->
     snd (checkCircuitBreaker (now_check a) (client st)) = None ->
     exists st' : LoopState,
       loop req (a :: env) st = Some (Returned (Some resp) None st') /\
       client st' =
         recordSuccess (fst (checkCircuitBreaker (now_check a) (client st))) /\
       cbConsecutive5xx (client st') = 0 /\
       cbState (client st') = CircuitClosed /\
       cbHalfOpenInFlight (client st') = false).
Proof.
  split.
  - intros c. repeat split.
  - intros req a env st resp Ht Hcode Hok.
    rewrite loop_step, (iteration_granted req a st Hok), Ht. cbv zeta.
    rewrite (handleResponse_success req a resp _ Hcode).
    eexists. split; [reflexivity|]. repeat split.
Qed.

Lemma C7_success_resets_witness :
  exists st' : LoopState,
    loop get_request [answered (31 * Second) 404 ""]
         (initLoop (mkClient CircuitOpen 5 0 CircuitBreakerCooldown 5 false))
      = Some (Returned (Some (response_with 404 "")) None st') /\
    client st' =
      recordSuccess
        (fst (checkCircuitBreaker (31 * Second)
                (mkClient CircuitOpen 5 0 CircuitBreakerCooldown 5 false))) /\
    cbConsecutive5xx (client st') = 0 /\
    cbState (client st') = CircuitClosed /\
    cbHalfOpenInFlight (client st') = false.
Proof.
  apply (proj2 C7_success_resets get_request (answered (31 * Second) 404 "") []
           (initLoop (mkClient CircuitOpen 5 0 CircuitBreakerCooldown 5 false))
           (response_with 404 ""));
    [reflexivity | right; cbn; lia | reflexivity].
Defined.

(** Claim C8.  When the round trip fails, the loop returns the transport
    error at once, whatever the rest of the script holds: the failed call
    is the last one, both retry counters and the wait log are as they
    were, and every breaker field is as the permission check left it. *)
Theorem C8_transport_failure (req : Request) (a : Attempt) (env : list Attempt)
    (st : LoopState) (msg : string) :
  transport a = inl msg ->
  snd (checkCircuitBreaker (now_check a) (client st)) = None ->
  exists st' : LoopState,
    loop req (a :: env) st = Some (Returned None (Some (ErrTransport msg)) st') /\
    client st' = fst (checkCircuitBreaker (now_check a) (client st)) /\
    retries429 st' = retries429 st /\
    retries5xx st' = retries5xx st /\
    calls st' = S (calls st) /\
    waits st' = waits st.
Proof.
  intros Ht Hok.
  rewrite loop_step, (iteration_granted req a st Hok), Ht. cbv zeta.
  eexists. split; [reflexivity|]. repeat split.
Qed.

Lemma C8_transport_failure_witness :
  exists st' : LoopState,
    loop get_request
         [mkAttempt 0 (inl "connection refused"%string) 0 0 None None;
          answered 0 200 ""]
         (initLoop NewClient)
      = Some (Returned None (Some (ErrTransport "connection refused")) st') /\
    client st' = fst (checkCircuitBreaker 0 NewClient) /\
    retries429 st' = 0 /\ retries5xx st' = 0 /\
    calls st' = 1%nat /\ waits st' = [].
Proof.
  apply (C8_transport_failure get_request
           (mkAttempt 0 (inl "connection refused"%string) 0 0 None None)
           [answered 0 200 ""] (initLoop NewClient) "connection refused");
    reflexivity.
Defined.

(* ------------------------------------------------------------------ *)
(** ** The rate-limit delay *)

Lemma shl1_pow2 (k : Z) : 0 <= k <= 32 -> shl1 k = 2 ^ k /\ 1 <= 2 ^ k <= 2 ^ 32.
Proof.
  intros Hk.
  assert (Hp : 1 <= 2 ^ k <= 2 ^ 32).
  { split.
    - change 1 with (2 ^ 0). apply Z.pow_le_mono_r; lia.
    - apply Z.pow_le_mono_r; lia. }
  split; [|exact Hp].
  unfold shl1. rewrite Z.shiftl_mul_pow2, Z.mul_1_l by lia.
  apply wrap64_id. int64_lia.
Qed.

Lemma rateLimitDelay_backoff (k draw : Z) :
  0 <= k <= 32 ->
  exists jitter : Z,
    0 <= jitter < RateLimitBaseDelay * 2 ^ k / 2 /\
    forall retryAfter : string,
      rateLimitDelay k draw retryAfter =
        Some (if String.eqb retryAfter "" then RateLimitBaseDelay * 2 ^ k + jitter
              else match Atoi retryAfter with
                   | Some seconds => wrap64 (seconds * Second)
                   | None => RateLimitBaseDelay * 2 ^ k + jitter
                   end).
Proof.
  intros Hk. destruct (shl1_pow2 k Hk) as [Hs Hp].
  unfold rateLimitDelay.
  destruct (Z.ltb_spec k 0); [lia|].
  rewrite Hs.
  assert (HB : 1000000000 <= RateLimitBaseDelay * 2 ^ k <= 1000000000 * 2 ^ 32).
  { unfold RateLimitBaseDelay, Second, Nanosecond. lia. }
  set (B := RateLimitBaseDelay * 2 ^ k) in *.
  rewrite (wrap64_id B) by int64_lia.
  rewrite (Z.quot_div_nonneg B 2) by lia.
  assert (Hn : 0 < B / 2) by (apply Z.div_str_pos; lia).
  assert (Hhalf : B / 2 <= B) by (apply Z.div_le_upper_bound; lia).
  unfold Int63n. destruct (Z.leb_spec (B / 2) 0); [lia|].
  pose proof (Z.mod_pos_bound draw _ Hn) as Hj.
  exists (draw mod (B / 2)). split; [exact Hj|].
  intros retryAfter.
  rewrite wrap64_id; [reflexivity|]. int64_lia.
Qed.

Lemma Atoi_nonempty (h : string) (n : Z) : Atoi h = Some n -> String.eqb h "" = false.
Proof. destruct h; [discriminate | reflexivity]. Qed.

(** Claim C5, amended.  At rate-limit retry [k] the delay computed for a
    429 without a [Retry-After] header is [RateLimitBaseDelay * 2 ^ k] plus
    a jitter in [[0, RateLimitBaseDelay * 2 ^ k / 2)]; with a header that
    [Atoi] reads as [secs], where [secs] seconds fit a [time.Duration],
    the delay is exactly [secs] seconds; and that delay is the duration the loop
    hands to [time.After] before it retries. *)
Theorem C5_rate_limit_delay (k draw : Z) :
  0 <= k <= 32 ->
  (exists jitter : Z,
     rateLimitDelay k draw "" = Some (RateLimitBaseDelay * 2 ^ k + jitter) /\
     0 <= jitter < RateLimitBaseDelay * 2 ^ k / 2) /\
  (forall (h : string) (secs : Z),
     Atoi h = Some secs -> in_int64 (secs * Second) ->
     rateLimitDelay k draw h = Some (secs * Second)) /\
  (forall (req : Request) (a : Attempt) (resp : Response) (st : LoopState),
     StatusCode resp = 429 -> retries429 st = k -> k < MaxRateLimitRetries ->
     rand_draw a = draw -> replay_error req a = None -> ctx_done a = None ->
     exists delay : Z,
       rateLimitDelay k draw (RetryAfter resp) = Some delay /\
       handleResponse req a resp st = Continue (incr_retries429 (log_wait delay st))).
Proof.
  intros Hk. destruct (rateLimitDelay_backoff k draw Hk) as (j & Hj & Hd).
  split; [|split].
  - exists j. split; [|exact Hj]. rewrite Hd. reflexivity.
  - intros h secs HS Hfit. rewrite Hd, (Atoi_nonempty h secs HS), HS.
    rewrite wrap64_id by exact Hfit. reflexivity.
  - intros req a resp st Hc Hr Hlt Hdraw Hrep Hctx.
    eexists. split; [apply Hd|].
    unfold handleResponse. rewrite Hc. cbn [Z.leb Z.ltb Z.eqb andb negb Z.compare Pos.compare Pos.compare_cont Pos.eqb].
    rewrite Hr. destruct (Z.leb_spec MaxRateLimitRetries k); [lia|].
    rewrite Hdraw, Hd. unfold replay_and_wait. rewrite Hrep, Hctx. reflexivity.
Qed.

Lemma C5_rate_limit_delay_witness :
  exists jitter : Z,
    rateLimitDelay 2 123456789 "" = Some (RateLimitBaseDelay * 2 ^ 2 + jitter) /\
    0 <= jitter < RateLimitBaseDelay * 2 ^ 2 / 2.
Proof.
  apply (C5_rate_limit_delay 2 123456789). lia.
Defined.

(** Claim C5 as stated fails: the header value [10000000000] is an
    integer for [Atoi], but that many seconds overflow [time.Duration]
    and the delay is a negative number of nanoseconds. *)
Lemma C5_counterexample :
  Atoi "10000000000" = Some 10000000000 /\
  rateLimitDelay 0 0 "10000000000" = Some (-8446744073709551616) /\
  rateLimitDelay 0 0 "10000000000" <> Some (10000000000 * Second).
Proof.
  split; [reflexivity|]. split; [reflexivity|]. vm_compute. discriminate.
Qed.

(* ------------------------------------------------------------------ *)
(** ** Rate-limited attempts *)

Lemma handleResponse_429 (req : Request) (a : Attempt) (resp : Response)
    (st : LoopState) :
  StatusCode resp = 429 ->
  handleResponse req a resp st =
    if MaxRateLimitRetries <=? retries429 st then Return (Some resp) None st
    else match rateLimitDelay (retries429 st) (rand_draw a) (RetryAfter resp) with
         | None => Panic
         | Some delay => replay_and_wait req a delay incr_retries429 st
         end.
Proof. intros H. unfold handleResponse. rewrite H. reflexivity. Qed.

Lemma rateLimitDelay_some (k draw : Z) (h : string) :
  0 <= k < MaxRateLimitRetries -> exists d : Z, rateLimitDelay k draw h = Some d.
Proof.
  intros Hk.
  destruct (rateLimitDelay_backoff k draw) as (j & _ & Hd);
    [unfold MaxRateLimitRetries in Hk; lia|].
  eexists. apply Hd.
Qed.

Lemma replay_and_wait_state (req : Request) (a : Attempt) (d : Z)
    (next : LoopState -> LoopState) (st : LoopState) :
  (forall s, client (next s) = client s) ->
  exists st' : LoopState,
    result_state (replay_and_wait req a d next st) = Some st' /\
    client st' = client st.
Proof.
  intros Hnext. unfold replay_and_wait.
  destruct (replay_error req a); [eexists; split; reflexivity|].
  destruct (ctx_done a); eexists; (split; [reflexivity|]);
    rewrite ?Hnext; reflexivity.
Qed.

(** Claim C10.  An attempt answered with status 429 ends, in whichever
    way (terminal return, replay error, cancelled wait, or another pass),
    with every breaker field as the permission check of that attempt left
    it; since a granting check of a [Closed] breaker changes nothing, the
    fields are then those from before the attempt. *)
Theorem C10_rate_limit_leaves_breaker (req : Request) (a : Attempt)
    (resp : Response) (st : LoopState) :
  transport a = inr resp ->
  StatusCode resp = 429 ->
  snd (checkCircuitBreaker (now_check a) (client st)) = None ->
  0 <= retries429 st ->
  exists st' : LoopState,
    result_state (iteration req a st) = Some st' /\
    client st' = fst (checkCircuitBreaker (now_check a) (client st)) /\
    (let c := fst (checkCircuitBreaker (now_check a) (client st)) in
     cbState (client st') = cbState c /\
     cbConsecutive5xx (client st') = cbConsecutive5xx c /\
     cbOpenedAt (client st') = cbOpenedAt c /\
     cbHalfOpenInFlight (client st') = cbHalfOpenInFlight c) /\
    (cbState (client st) = CircuitClosed -> client st' = client st).
Proof.
  intros Ht Hc Hok Hr.
  rewrite (iteration_granted req a st Hok), Ht. cbv zeta.
  rewrite (handleResponse_429 req a resp _ Hc).
  set (c := fst (checkCircuitBreaker (now_check a) (client st))).
  set (st1 := count_call (set_client c st)).
  assert (H : exists st' : LoopState,
             result_state
               (if MaxRateLimitRetries <=? retries429 st1
                then Return (Some resp) None st1
                else match rateLimitDelay (retries429 st1) (rand_draw a)
                             (RetryAfter resp) with
                     | Some delay => replay_and_wait req a delay incr_retries429 st1
                     | None => Panic
                     end) = Some st' /\ client st' = c).
  { destruct (Z.leb_spec MaxRateLimitRetries (retries429 st1)).
    - eexists. split; reflexivity.
    - destruct (rateLimitDelay_some (retries429 st1) (rand_draw a) (RetryAfter resp))
        as [d Hd]; [split; [exact Hr | assumption]|].
      rewrite Hd.
      destruct (replay_and_wait_state req a d incr_retries429 st1) as (st' & E & Hcl);
        [reflexivity|].
      exists st'. split; [exact E | exact Hcl]. }
  destruct H as (st' & E & Hcl). exists st'.
  split; [exact E|]. split; [exact Hcl|]. split.
  - rewrite Hcl. repeat split.
  - intros Hclosed. rewrite Hcl. unfold c.
    rewrite (checkCircuitBreaker_closed _ _ Hclosed). reflexivity.
Qed.

Lemma C10_rate_limit_leaves_breaker_witness :
  exists st' : LoopState,
    result_state (iteration get_request (answered 0 429 "") (initLoop NewClient))
      = Some st' /\
    client st' = fst (checkCircuitBreaker 0 NewClient).
Proof.
  destruct (C10_rate_limit_leaves_breaker get_request (answered 0 429 "")
              (response_with 429 "") (initLoop NewClient))
    as (st' & E & Hc & _);
    [reflexivity | reflexivity | reflexivity | cbn; lia |].
  exists st'. split; [exact E | exact Hc].
Defined.

Lemma loop_rate_limited (req : Request) :
  forall (n : nat) (env : list Attempt) (st : LoopState),
    Forall rate_limited env ->
    Z.of_nat n <= MaxRateLimitRetries ->
    retries429 st = MaxRateLimitRetries - Z.of_nat n ->
    (n < List.length env)%nat ->
    exists (resp : option Response) (err : option error) (st' : LoopState),
      loop req env st = Some (Returned resp err st') /\
      (forall r : Response, resp = Some r ->
         err = None /\ StatusCode r = 429 /\
         (exists a : Attempt, nth_error env n = Some a /\ transport a = inr r) /\
         calls st' = (calls st + S n)%nat /\
         retries429 st' = MaxRateLimitRetries) /\
      (cbState (client st) = CircuitClosed ->
       Forall (uninterrupted req) env ->
       exists r : Response, resp = Some r).
Proof.
  induction n as [|n IH]; intros env st Hall Hle Hr Hlen;
    (destruct env as [|a env]; [cbn in Hlen; lia|]);
    inversion Hall as [|? ? (r & Ht & Hc) Hall']; subst;
    rewrite loop_step;
    destruct (snd (checkCircuitBreaker (now_check a) (client st))) as [e|] eqn:Hchk.
  - rewrite (iteration_rejected req a st e Hchk).
    eexists _, _, _. split; [reflexivity|]. split; [discriminate|].
    intros Hcl _. rewrite (checkCircuitBreaker_closed _ _ Hcl) in Hchk. discriminate.
  - rewrite (iteration_granted req a st Hchk), Ht. cbv zeta.
    rewrite (handleResponse_429 req a r _ Hc).
    cbn [retries429 count_call set_client]. rewrite Hr.
    destruct (Z.leb_spec MaxRateLimitRetries (MaxRateLimitRetries - Z.of_nat 0));
      [|lia].
    eexists _, _, _. split; [reflexivity|]. split.
    + intros r0 [= <-].
      split; [reflexivity|]. split; [exact Hc|].
      split; [exists a; split; [reflexivity | exact Ht]|].
      split; [cbn; lia | cbn; rewrite Hr; lia].
    + intros _ _. eauto.
  - rewrite (iteration_rejected req a st e Hchk).
    eexists _, _, _. split; [reflexivity|]. split; [discriminate|].
    intros Hcl _. rewrite (checkCircuitBreaker_closed _ _ Hcl) in Hchk. discriminate.
  - rewrite (iteration_granted req a st Hchk), Ht. cbv zeta.
    rewrite (handleResponse_429 req a r _ Hc).
    cbn [retries429 count_call set_client]. rewrite Hr.
    destruct (Z.leb_spec MaxRateLimitRetries (MaxRateLimitRetries - Z.of_nat (S n)));
      [lia|].
    destruct (rateLimitDelay_some (MaxRateLimitRetries - Z.of_nat (S n))
                (rand_draw a) (RetryAfter r)) as [d Hd]; [lia|].
    rewrite Hd. unfold replay_and_wait.
    destruct (replay_error req a) as [e|] eqn:Hrep.
    { eexists _, _, _. split; [reflexivity|]. split; [discriminate|].
      intros _ Hun. inversion Hun as [|? ? [Hu _] _]; subst. congruence. }
    destruct (ctx_done a) as [e|] eqn:Hctx.
    { eexists _, _, _. split; [reflexivity|]. split; [discriminate|].
      intros _ Hun. inversion Hun as [|? ? [_ Hu] _]; subst. congruence. }
    match goal with |- context [loop req env ?s] => set (st2 := s) end.
    destruct (IH env st2 Hall') as (resp & err & st' & E & Hret & Hprog).
    + lia.
    + unfold st2. cbn [retries429 incr_retries429 log_wait count_call set_client].
      rewrite Hr, incr_no_overflow; unfold MaxRateLimitRetries in *; int64_lia.
    + cbn in Hlen. lia.
    + exists resp, err, st'. split; [exact E|]. split.
      * intros r0 Hr0. destruct (Hret r0 Hr0) as (H1 & H2 & H3 & H4 & H5).
        repeat split; auto. rewrite H4. unfold st2. cbn. lia.
      * intros Hcl Hun. apply Hprog.
        -- unfold st2. cbn [client incr_retries429 log_wait count_call set_client].
           rewrite (checkCircuitBreaker_closed _ _ Hcl). exact Hcl.
        -- inversion Hun; assumption.
Qed.

Lemma three_checks_granted (t1 t2 t3 : Z) (c : Client) :
  snd (checkCircuitBreaker t1 c) = None ->
  snd (checkCircuitBreaker t2 (fst (checkCircuitBreaker t1 c))) = None ->
  snd (checkCircuitBreaker t3
         (fst (checkCircuitBreaker t2 (fst (checkCircuitBreaker t1 c))))) = None ->
  cbState c = CircuitClosed.
Proof.
  destruct c as [s n o cd th f]. unfold checkCircuitBreaker. cbn.
  destruct s; [reflexivity | |].
  - destruct (cd <=? time_Since t1 o); cbn; [|discriminate].
    destruct f; cbn; discriminate.
  - destruct f; cbn; discriminate.
Qed.

Lemma iteration_rate_limited (req : Request) (a : Attempt) (st : LoopState) :
  rate_limited a ->
  0 <= retries429 st < MaxRateLimitRetries ->
  (exists (e : error) (st' : LoopState),
     iteration req a st = Return None (Some e) st' /\
     retries429 st' = retries429 st) \/
  (exists st' : LoopState,
     iteration req a st = Continue st' /\
     retries429 st' = retries429 st + 1 /\
     snd (checkCircuitBreaker (now_check a) (client st)) = None /\
     client st' = fst (checkCircuitBreaker (now_check a) (client st))).
Proof.
  intros (r & Ht & Hc) Hr.
  destruct (snd (checkCircuitBreaker (now_check a) (client st))) as [e|] eqn:Hchk.
  - left. rewrite (iteration_rejected req a st e Hchk). eauto.
  - rewrite (iteration_granted req a st Hchk), Ht. cbv zeta.
    rewrite (handleResponse_429 req a r _ Hc).
    cbn [retries429 count_call set_client].
    destruct (Z.leb_spec MaxRateLimitRetries (retries429 st)); [lia|].
    destruct (rateLimitDelay_some (retries429 st) (rand_draw a) (RetryAfter r) Hr)
      as [d Hd].
    rewrite Hd. unfold replay_and_wait.
    destruct (replay_error req a); [left; eauto|].
    destruct (ctx_done a); [left; eauto|].
    right. eexists. split; [reflexivity|]. split; [|split; reflexivity].
    cbn [retries429 incr_retries429 log_wait count_call set_client].
    apply incr_no_overflow. unfold MaxRateLimitRetries in *. int64_lia.
Qed.

Lemma doWithRetry_retries_spent (c : Client) (req : Request) (env : list Attempt)
    (resp : option Response) (err : option error) (st : LoopState) :
  Forall rate_limited env ->
  doWithRetry c req env = Some (Returned resp err st) ->
  retries429 st = MaxRateLimitRetries ->
  exists r : Response, resp = Some r.
Proof.
  unfold doWithRetry. intros Hall Hrun Hspent.
  destruct env as [|a1 env]; [discriminate|].
  inversion Hall as [|? ? H1 Hall1]; subst.
  rewrite loop_step in Hrun.
  destruct (iteration_rate_limited req a1 (initLoop c) H1)
    as [(e & s & E & Hs) | (s1 & E1 & R1 & G1 & K1)];
    [unfold MaxRateLimitRetries; cbn; lia | | ].
  { rewrite E in Hrun. inversion Hrun; subst.
    rewrite Hs in Hspent. discriminate. }
  rewrite E1 in Hrun.
  destruct env as [|a2 env]; [discriminate|].
  inversion Hall1 as [|? ? H2 Hall2]; subst.
  rewrite loop_step in Hrun.
  destruct (iteration_rate_limited req a2 s1 H2)
    as [(e & s & E & Hs) | (s2 & E2 & R2 & G2 & K2)];
    [rewrite R1; unfold MaxRateLimitRetries; cbn; lia | | ].
  { rewrite E in Hrun. inversion Hrun; subst.
    rewrite Hs, R1 in Hspent. discriminate. }
  rewrite E2 in Hrun.
  destruct env as [|a3 env]; [discriminate|].
  inversion Hall2 as [|? ? H3 Hall3]; subst.
  rewrite loop_step in Hrun.
  destruct (iteration_rate_limited req a3 s2 H3)
    as [(e & s & E & Hs) | (s3 & E3 & R3 & G3 & K3)];
    [rewrite R2, R1; unfold MaxRateLimitRetries; cbn; lia | | ].
  { rewrite E in Hrun. inversion Hrun; subst.
    rewrite Hs, R2, R1 in Hspent. discriminate. }
  rewrite E3 in Hrun.
  destruct env as [|a4 env]; [discriminate|].
  inversion Hall3 as [|? ? (r & Ht & Hc) _]; subst.
  rewrite loop_step in Hrun.
  assert (Hclosed : cbState (client s3) = CircuitClosed).
  { rewrite K1 in G2. rewrite K2, K1 in G3.
    pose proof (three_checks_granted _ _ _ _ G1 G2 G3) as Hcl.
    cbn [client initLoop] in Hcl.
    rewrite K3, K2, K1. cbn [client initLoop].
    rewrite !(checkCircuitBreaker_closed _ _ Hcl). exact Hcl. }
  rewrite (iteration_granted req a4 s3) in Hrun
    by (rewrite (checkCircuitBreaker_closed _ _ Hclosed); reflexivity).
  rewrite Ht in Hrun. cbv zeta in Hrun.
  rewrite (handleResponse_429 req a4 r _ Hc) in Hrun.
  cbn [retries429 count_call set_client] in Hrun.
  rewrite R3, R2, R1 in Hrun. cbn in Hrun.
  inversion Hrun; subst. eauto.
Qed.

(** Claim C6.  Against a script in which every attempt is answered 429
    and which holds at least [MaxRateLimitRetries + 1] attempts, the call
    ends.  When it ends by returning a response, the error is nil, the
    response is the 429 of attempt number [MaxRateLimitRetries + 1], all
    [MaxRateLimitRetries] retries have been spent and exactly
    [MaxRateLimitRetries + 1] transport calls were made.  It ends that way
    whenever it has spent all [MaxRateLimitRetries] retries, and it does
    spend them when the breaker is [Closed] and no backoff is
    interrupted. *)
Theorem C6_rate_limit_exhausted (c : Client) (req : Request) (env : list Attempt) :
  Forall rate_limited env ->
  (Z.to_nat MaxRateLimitRetries < List.length env)%nat ->
  exists (resp : option Response) (err : option error) (st : LoopState),
    doWithRetry c req env = Some (Returned resp err st) /\
    (forall r : Response, resp = Some r ->
       err = None /\ StatusCode r = 429 /\
       (exists a : Attempt,
          nth_error env (Z.to_nat MaxRateLimitRetries) = Some a /\
          transport a = inr r) /\
       calls st = S (Z.to_nat MaxRateLimitRetries) /\
       retries429 st = MaxRateLimitRetries) /\
    (retries429 st = MaxRateLimitRetries -> exists r : Response, resp = Some r) /\
    (cbState c = CircuitClosed ->
     Forall (uninterrupted req) env ->
     exists r : Response, resp = Some r).
Proof.
  intros Hall Hlen. unfold doWithRetry.
  destruct (loop_rate_limited req (Z.to_nat MaxRateLimitRetries) env
              (initLoop c) Hall)
    as (resp & err & st & E & Hret & Hprog);
    [unfold MaxRateLimitRetries; lia | reflexivity | exact Hlen |].
  exists resp, err, st. split; [exact E|].
  split; [|split; [|exact Hprog]].
  - intros r Hr. destruct (Hret r Hr) as (H1 & H2 & H3 & H4 & H5).
    repeat split; auto.
  - apply (doWithRetry_retries_spent c req env resp err st Hall E).
Qed.

Lemma C6_rate_limit_exhausted_witness :
  exists (resp : option Response) (err : option error) (st : LoopState),
    doWithRetry NewClient get_request four_rate_limits
      = Some (Returned resp err st) /\
    (forall r : Response, resp = Some r ->
       err = None /\ StatusCode r = 429 /\
       (exists a : Attempt,
          nth_error four_rate_limits (Z.to_nat MaxRateLimitRetries) = Some a /\
          transport a = inr r) /\
       calls st = S (Z.to_nat MaxRateLimitRetries) /\
       retries429 st = MaxRateLimitRetries) /\
    (retries429 st = MaxRateLimitRetries -> exists r : Response, resp = Some r) /\
    (cbState NewClient = CircuitClosed ->
     Forall (uninterrupted get_request) four_rate_limits ->
     exists r : Response, resp = Some r).
Proof.
  apply (C6_rate_limit_exhausted NewClient get_request four_rate_limits).
  - repeat constructor; eexists; split; reflexivity.
  - cbn. lia.
Defined.

(* ------------------------------------------------------------------ *)
(** ** Server errors *)

Lemma handleResponse_5xx (req : Request) (a : Attempt) (resp : Response)
    (st : LoopState) :
  500 <= StatusCode resp ->
  handleResponse req a resp st =
    let st' := set_client (record5xxError (now_record a) (client st)) st in
    if negb (isIdempotent req) || (Max5xxRetries <=? retries5xx st')
    then Return (Some resp) None st'
    else replay_and_wait req a ServerErrorRetryDelay incr_retries5xx st'.
Proof.
  intros H. unfold handleResponse.
  destruct (Z.ltb_spec (StatusCode resp) 300); [lia|].
  destruct (Z.ltb_spec (StatusCode resp) 500); [lia|].
  destruct (Z.eqb_spec (StatusCode resp) 429); [lia|].
  destruct (Z.leb_spec 500 (StatusCode resp)); [|lia].
  rewrite !andb_false_r. reflexivity.
Qed.

(** Claim C4, amended.  A response with status 500 or more is reported to
    the breaker.  It is returned as terminal, with a nil error and no
    wait, when the method is not GET, HEAD or OPTIONS or when
    [Max5xxRetries] server-error retries have been made.  Otherwise, if
    the body can be replayed and the context lasts, the loop waits
    [ServerErrorRetryDelay], counts one more server-error retry and makes
    another pass, which starts with the permission check: if the breaker
    rejects it, the call ends with the circuit-open error and no further
    transport call; if it is granted and answered by a server error again,
    a call that began with no retries returns that last response after
    [Max5xxRetries + 1] transport calls. *)
Theorem C4_server_error_policy (req : Request) (a1 a2 : Attempt)
    (r1 r2 : Response) (st : LoopState) (env : list Attempt) :
  transport a1 = inr r1 ->
  500 <= StatusCode r1 ->
  snd (checkCircuitBreaker (now_check a1) (client st)) = None ->
  0 <= retries5xx st <= Max5xxRetries ->
  let c1 := record5xxError (now_record a1)
              (fst (checkCircuitBreaker (now_check a1) (client st))) in
  let st1 := count_call (set_client c1 st) in
  let st2 := incr_retries5xx (log_wait ServerErrorRetryDelay st1) in
  (isIdempotent req = false \/ retries5xx st = Max5xxRetries ->
     loop req (a1 :: env) st = Some (Returned (Some r1) None st1)) /\
  (isIdempotent req = true -> retries5xx st < Max5xxRetries ->
   uninterrupted req a1 ->
     loop req (a1 :: env) st = loop req env st2 /\
     retries5xx st2 = retries5xx st + 1 /\
     waits st2 = ServerErrorRetryDelay :: waits st /\
     client st2 = c1 /\
     (snd (checkCircuitBreaker (now_check a2) c1) = Some ErrCircuitOpen ->
        loop req (a1 :: a2 :: env) st
          = Some (Returned None (Some ErrCircuitOpen) st2)) /\
     (snd (checkCircuitBreaker (now_check a2) c1) = None ->
      transport a2 = inr r2 -> 500 <= StatusCode r2 -> retries5xx st = 0 ->
        loop req (a1 :: a2 :: env) st
          = Some (Returned (Some r2) None
                    (count_call
                       (set_client
                          (record5xxError (now_record a2)
                             (fst (checkCircuitBreaker (now_check a2) c1)))
                          st2))) /\
        calls st2 = S (calls st))).
Proof.
  intros Ht Hc Hok Hr c1 st1 st2.
  assert (Hstep : iteration req a1 st =
            if negb (isIdempotent req) || (Max5xxRetries <=? retries5xx st)
            then Return (Some r1) None st1
            else replay_and_wait req a1 ServerErrorRetryDelay incr_retries5xx st1).
  { rewrite (iteration_granted req a1 st Hok), Ht. cbv zeta.
    rewrite (handleResponse_5xx req a1 r1 _ Hc). reflexivity. }
  split.
  - intros Hterm. rewrite loop_step, Hstep.
    destruct Hterm as [-> | ->]; [reflexivity|].
    rewrite Z.leb_refl, orb_true_r. reflexivity.
  - intros Hidem Hlt [Hrep Hctx].
    assert (Hcont : iteration req a1 st = Continue st2).
    { rewrite Hstep, Hidem.
      destruct (Z.leb_spec Max5xxRetries (retries5xx st)); [lia|].
      cbn [negb orb]. unfold replay_and_wait. rewrite Hrep, Hctx. reflexivity. }
    assert (Hloop : forall env', loop req (a1 :: env') st = loop req env' st2).
    { intros env'. rewrite loop_step, Hcont. reflexivity. }
    assert (Hinc : retries5xx st2 = retries5xx st + 1).
    { unfold st2. cbn [retries5xx incr_retries5xx log_wait count_call set_client].
      apply incr_no_overflow. unfold Max5xxRetries in *. int64_lia. }
    split; [apply Hloop|]. split; [exact Hinc|].
    split; [reflexivity|]. split; [reflexivity|]. split.
    + intros Hrej. rewrite Hloop, loop_step.
      rewrite (iteration_rejected req a2 st2 ErrCircuitOpen Hrej). reflexivity.
    + intros Hok2 Ht2 Hc2 Hzero. split; [|reflexivity].
      rewrite Hloop, loop_step.
      rewrite (iteration_granted req a2 st2 Hok2), Ht2. cbv zeta.
      rewrite (handleResponse_5xx req a2 r2 _ Hc2). cbv zeta.
      replace (retries5xx
                 (set_client
                    (record5xxError (now_record a2)
                       (client
                          (count_call
                             (set_client
                                (fst (checkCircuitBreaker (now_check a2) (client st2)))
                                st2))))
                    (count_call
                       (set_client
                          (fst (checkCircuitBreaker (now_check a2) (client st2)))
                          st2))))
        with (retries5xx st2) by reflexivity.
      rewrite Hinc, Hzero. cbn [Z.add Z.leb Z.compare Max5xxRetries Pos.compare Pos.compare_cont].
      rewrite orb_true_r. reflexivity.
Qed.

Lemma C4_server_error_policy_witness :
  loop get_request [answered 0 500 ""; answered 1 503 ""] (initLoop NewClient)
  = Some (Returned (Some (response_with 503 "")) None
            (mkLoopState
               (mkClient CircuitClosed 2 time_zero CircuitBreakerCooldown
                         CircuitBreakerThreshold false)
               0 1 2 [ServerErrorRetryDelay])).
Proof.
  destruct (C4_server_error_policy get_request (answered 0 500 "")
              (answered 1 503 "") (response_with 500 "") (response_with 503 "")
              (initLoop NewClient) [])
    as [_ H];
    [reflexivity | cbn; lia | reflexivity | unfold Max5xxRetries; cbn; lia |].
  destruct H as (_ & _ & _ & _ & _ & H);
    [reflexivity | unfold Max5xxRetries; cbn; lia | split; reflexivity |].
  destruct H as [H _]; [reflexivity | reflexivity | cbn; lia | reflexivity |].
  exact H.
Defined.

(** Claim C4 as stated fails on the third GET of a new client whose every
    attempt is answered 500: the first of its server errors is the fifth in
    a row and opens the breaker, so the retry is rejected by the
    permission check and the call returns the circuit-open error after one
    transport call instead of the last 5xx response after two. *)
Lemma C4_counterexample :
  exists (c1 c2 : Client) (st1 st2 st3 : LoopState),
    doWithRetry NewClient get_request two_server_errors
      = Some (Returned (Some (response_with 500 "")) None st1) /\
    client st1 = c1 /\
    doWithRetry c1 get_request two_server_errors
      = Some (Returned (Some (response_with 500 "")) None st2) /\
    client st2 = c2 /\
    doWithRetry c2 get_request two_server_errors
      = Some (Returned None (Some ErrCircuitOpen) st3) /\
    calls st3 = 1%nat /\
    cbState (client st3) = CircuitOpen.
Proof.
  eexists _, _, _, _, _.
  split; [vm_compute; reflexivity|]. split; [reflexivity|].
  split; [vm_compute; reflexivity|]. split; [reflexivity|].
  split; [vm_compute; reflexivity|]. split; reflexivity.
Qed.

(* ------------------------------------------------------------------ *)
(** ** The error classifier *)

Lemma looksLikeHTML_spec (body : string) :
  looksLikeHTML body = true <->
  body <> EmptyString /\
  (String.get 0 body = Some "<"%char \/ HasPrefix (TrimSpace body) "<!" = true).
Proof.
  unfold looksLikeHTML. destruct body as [|ch rest].
  - split; [discriminate | intros [H _]; congruence].
  - cbn [String.get]. rewrite orb_true_iff. split.
    + intros [H|H]; (split; [discriminate|]).
      * left. apply Ascii.eqb_eq in H. congruence.
      * right. exact H.
    + intros [_ [H|H]].
      * left. apply Ascii.eqb_eq. congruence.
      * right. exact H.
Qed.

Lemma json_Unmarshal_markup (dec : string -> option errorResponse) (rest : string) :
  json_Unmarshal dec (String "<"%char rest) = None.
Proof. reflexivity. Qed.

(** Claim C9, amended.  [ParseAPIError] returns a non-nil error for every
    body.  When decoding fails and the body is not empty and either begins
    with [<] or, with surrounding white space trimmed, begins with [<!],
    the result is the synthetic [not_found] error; a body that begins with
    [<] never decodes, so it always gets that error.  When decoding fails
    on any other body, the result has the raw body as its message and an
    empty code.  When decoding succeeds the result is the decoded error. *)
Theorem C9_classifier (dec : string -> option errorResponse) (body : string) :
  (exists e : APIError, ParseAPIError dec body = Some e) /\
  (looksLikeHTML body = true <->
     body <> EmptyString /\
     (String.get 0 body = Some "<"%char \/
      HasPrefix (TrimSpace body) "<!" = true)) /\
  (json_Unmarshal dec body = None ->
     (looksLikeHTML body = true ->
        ParseAPIError dec body = Some notFoundError) /\
     (looksLikeHTML body = false ->
        ParseAPIError dec body
          = Some {| Code := ""; Message := body; DocURL := "" |})) /\
  (forall rest : string,
     ParseAPIError dec (String "<"%char rest) = Some notFoundError) /\
  (forall r : errorResponse,
     json_Unmarshal dec body = Some r ->
     ParseAPIError dec body = Some (Error r)).
Proof.
  split; [|split; [|split; [|split]]].
  - unfold ParseAPIError.
    destruct (json_Unmarshal dec body); [eauto|].
    destruct (looksLikeHTML body); eauto.
  - apply looksLikeHTML_spec.
  - intros Hfail. unfold ParseAPIError. rewrite Hfail.
    split; intros ->; reflexivity.
  - intros rest. reflexivity.
  - intros r Hr. unfold ParseAPIError. rewrite Hr. reflexivity.
Qed.

Lemma C9_classifier_witness :
  ParseAPIError (fun _ => None) "upstream timed out"
  = Some {| Code := ""; Message := "upstream timed out"; DocURL := "" |}.
Proof.
  apply (C9_classifier (fun _ => None) "upstream timed out"); reflexivity.
Defined.

(** Claim C9 as stated fails on an HTML page that starts with a blank:
    decoding fails and the first byte is not [<], yet the message of the
    result is the synthetic one, not the raw body. *)
Lemma C9_counterexample :
  (forall dec : string -> option errorResponse,
     json_Unmarshal dec indented_page = None) /\
  String.get 0 indented_page = Some " "%char /\
  (forall dec : string -> option errorResponse,
     ParseAPIError dec indented_page = Some notFoundError) /\
  Message notFoundError <> indented_page.
Proof.
  split; [reflexivity|]. split; [reflexivity|].
  split; [intros dec; vm_compute; reflexivity | discriminate].
Qed.

(* ================================================================== *)
(** * Further properties *)

(* ------------------------------------------------------------------ *)
(** ** Reasoning about the loop *)

Lemma handleResponse_other (req : Request) (a : Attempt) (resp : Response)
    (st : LoopState) :
  StatusCode resp < 200 \/ 300 <= StatusCode resp < 400 ->
  handleResponse req a resp st = Return (Some resp) None st.
Proof.
  intros H. unfold handleResponse.
  destruct (Z.leb_spec 200 (StatusCode resp));
    destruct (Z.ltb_spec (StatusCode resp) 300);
    destruct (Z.leb_spec 400 (StatusCode resp));
    destruct (Z.eqb_spec (StatusCode resp) 429);
    destruct (Z.leb_spec 500 (StatusCode resp));
    try lia; cbn; reflexivity.
Qed.

Lemma status_bands (code : Z) :
  (200 <= code < 300 \/ (400 <= code < 500 /\ code <> 429)) \/
  code = 429 \/ 500 <= code \/ (code < 200 \/ 300 <= code < 400).
Proof. lia. Qed.

Section LoopInduction.

Variable req : Request.
Variable Good : Attempt -> Prop.
Variable Inv : LoopState -> Prop.
Variable Post : option Response -> option error -> LoopState -> Prop.

Hypothesis step :
  forall (a : Attempt) (st : LoopState), Good a -> Inv st ->
    match iteration req a st with
    | Panic => False
    | Continue st' => Inv st' /\ (retry_budget st' < retry_budget st)%nat
    | Return resp err st' => Post resp err st'
    end.

Lemma loop_partial : forall (env : list Attempt) (st : LoopState) (o : Outcome),
  Forall Good env -> Inv st -> loop req env st = Some o ->
  exists resp err st', o = Returned resp err st' /\ Post resp err st'.
Proof.
  induction env as [|a env IH]; intros st o Hall Hinv Hrun; [discriminate|].
  inversion Hall as [|? ? Ha Hall']; subst.
  rewrite loop_step in Hrun. pose proof (step a st Ha Hinv) as Hs.
  destruct (iteration req a st) as [resp err st'|st'|]; [| |contradiction].
  - inversion Hrun; subst. eauto.
  - destruct Hs as [Hinv' _]. eapply IH; eauto.
Qed.

Lemma loop_total : forall (n : nat) (env : list Attempt) (st : LoopState),
  Forall Good env -> Inv st ->
  (retry_budget st <= n)%nat -> (n < List.length env)%nat ->
  exists o : Outcome, loop req env st = Some o.
Proof.
  induction n as [|n IH]; intros env st Hall Hinv Hb Hlen;
    (destruct env as [|a env]; [cbn in Hlen; lia|]);
    inversion Hall as [|? ? Ha Hall']; subst;
    rewrite loop_step; pose proof (step a st Ha Hinv) as Hs;
    (destruct (iteration req a st) as [resp err st'|st'|]; [eauto| |contradiction]);
    destruct Hs as [Hinv' Hdec].
  - lia.
  - apply IH; auto; [lia | cbn in Hlen; lia].
Qed.

End LoopInduction.

Lemma incr_retry (x m : Z) : 0 <= x < m -> m <= 3 -> incr x = x + 1.
Proof. intros H Hm. apply incr_no_overflow. int64_lia. Qed.

Ltac loop_fields :=
  unfold at_return, at_loop_head, retry_budget;
  cbn [retries429 retries5xx calls waits client count_call set_client
       log_wait incr_retries429 incr_retries5xx List.length].

Ltac settle_return :=
  loop_fields; repeat split; auto; try lia; try discriminate; try congruence.

Lemma iteration_accounting (req : Request) (a : Attempt) (st : LoopState) :
  at_loop_head st ->
  match iteration req a st with
  | Panic => False
  | Continue st' => at_loop_head st' /\ (retry_budget st' < retry_budget st)%nat
  | Return resp err st' => at_return resp err st'
  end.
Proof.
  intros (H429 & H5xx & Hcalls & Hwaits).
  destruct (snd (checkCircuitBreaker (now_check a) (client st))) as [e|] eqn:Hchk.
  { rewrite (iteration_rejected req a st e Hchk). settle_return. }
  rewrite (iteration_granted req a st Hchk). cbv zeta.
  destruct (transport a) as [msg|resp]; [settle_return|].
  destruct (status_bands (StatusCode resp)) as [Hs|[Hs|[Hs|Hs]]].
  - rewrite (handleResponse_success req a resp _ Hs). settle_return.
  - rewrite (handleResponse_429 req a resp _ Hs).
    cbn [retries429 count_call set_client].
    destruct (Z.leb_spec MaxRateLimitRetries (retries429 st)); [settle_return|].
    destruct (rateLimitDelay_some (retries429 st) (rand_draw a) (RetryAfter resp))
      as [d Hd]; [lia|].
    rewrite Hd. unfold replay_and_wait.
    destruct (replay_error req a); [settle_return|].
    destruct (ctx_done a); [settle_return|].
    loop_fields.
    rewrite (incr_retry (retries429 st) MaxRateLimitRetries)
      by (unfold MaxRateLimitRetries in *; lia).
    unfold MaxRateLimitRetries, Max5xxRetries in *. repeat split; lia.
  - rewrite (handleResponse_5xx req a resp _ Hs). cbv zeta.
    cbn [retries5xx count_call set_client].
    destruct (negb (isIdempotent req) || (Max5xxRetries <=? retries5xx st)) eqn:Hterm;
      [settle_return|].
    apply orb_false_iff in Hterm. destruct Hterm as [_ Hlt].
    apply Z.leb_gt in Hlt.
    unfold replay_and_wait.
    destruct (replay_error req a); [settle_return|].
    destruct (ctx_done a); [settle_return|].
    loop_fields.
    rewrite (incr_retry (retries5xx st) Max5xxRetries)
      by (unfold Max5xxRetries in *; lia).
    unfold MaxRateLimitRetries, Max5xxRetries in *. repeat split; lia.
  - rewrite (handleResponse_other req a resp _ Hs). settle_return.
Qed.

(* ------------------------------------------------------------------ *)
(** ** Ceilings of a call *)

Lemma at_loop_head_init (c : Client) : at_loop_head (initLoop c).
Proof. unfold at_loop_head, MaxRateLimitRetries, Max5xxRetries. cbn. lia. Qed.

(** Property X1.  Against a script of [MaxRateLimitRetries + Max5xxRetries + 1] attempts
    or more, whatever they are, a call returns: it neither runs on nor
    panics, it makes at most that many transport calls and both retry
    counters stay within their ceilings. *)
Theorem doWithRetry_terminates (c : Client) (req : Request) (env : list Attempt) :
  (S (Z.to_nat MaxRateLimitRetries + Z.to_nat Max5xxRetries) <= List.length env)%nat ->
  exists (resp : option Response) (err : option error) (st : LoopState),
    doWithRetry c req env = Some (Returned resp err st) /\
    (calls st <= S (Z.to_nat MaxRateLimitRetries + Z.to_nat Max5xxRetries))%nat /\
    0 <= retries429 st <= MaxRateLimitRetries /\
    0 <= retries5xx st <= Max5xxRetries.
Proof.
  intros Hlen. unfold doWithRetry.
  destruct (loop_total req (fun _ => True) at_loop_head at_return
              (fun a st _ => iteration_accounting req a st)
              (Z.to_nat MaxRateLimitRetries + Z.to_nat Max5xxRetries)%nat
              env (initLoop c)) as [o Ho].
  - apply Forall_forall. auto.
  - apply at_loop_head_init.
  - unfold retry_budget. cbn. lia.
  - lia.
  - destruct (loop_partial req (fun _ => True) at_loop_head at_return
                (fun a st _ => iteration_accounting req a st)
                env (initLoop c) o) as (resp & err & st & -> & Hpost); auto.
    + apply Forall_forall. auto.
    + apply at_loop_head_init.
    + exists resp, err, st. split; [exact Ho|].
      destruct Hpost as (H1 & H2 & _ & H4 & _).
      split; [|split; assumption].
      unfold MaxRateLimitRetries, Max5xxRetries in *.
      destruct err as [[]|]; cbn; lia.
Qed.

Lemma doWithRetry_terminates_witness :
  exists (resp : option Response) (err : option error) (st : LoopState),
    doWithRetry NewClient get_request
      (answered 0 500 "" :: four_rate_limits) = Some (Returned resp err st) /\
    (calls st <= S (Z.to_nat MaxRateLimitRetries + Z.to_nat Max5xxRetries))%nat /\
    0 <= retries429 st <= MaxRateLimitRetries /\
    0 <= retries5xx st <= Max5xxRetries.
Proof.
  apply (doWithRetry_terminates NewClient get_request
           (answered 0 500 "" :: four_rate_limits)).
  cbn. lia.
Defined.

(** Property X2.  Whenever a call returns, exactly one of the response and the error is
    nil; the transport calls made are one per retry plus the first one,
    except that a call ended by the circuit-open error made one call per
    retry only (none at all when it was rejected at once); and one wait
    was started per retry, plus one when the call ended by the end of the
    context.  No script makes a call panic. *)
Theorem doWithRetry_accounting (c : Client) (req : Request) (env : list Attempt)
    (o : Outcome) :
  doWithRetry c req env = Some o ->
  exists (resp : option Response) (err : option error) (st : LoopState),
    o = Returned resp err st /\
    (resp = None <-> err <> None) /\
    Z.of_nat (calls st) =
      retries429 st + retries5xx st
      + (match err with Some ErrCircuitOpen => 0 | _ => 1 end) /\
    Z.of_nat (List.length (waits st)) =
      retries429 st + retries5xx st
      + (match err with Some (ErrContext _) => 1 | _ => 0 end).
Proof.
  intros Hrun.
  destruct (loop_partial req (fun _ => True) at_loop_head at_return
              (fun a st _ => iteration_accounting req a st)
              env (initLoop c) o) as (resp & err & st & -> & Hpost); auto.
  - apply Forall_forall. auto.
  - apply at_loop_head_init.
  - exists resp, err, st. split; [reflexivity|].
    destruct Hpost as (_ & _ & H3 & H4 & H5). auto.
Qed.

Lemma doWithRetry_accounting_witness :
  exists (resp : option Response) (err : option error) (st : LoopState),
    Returned (Some (response_with 500 "")) None
      (mkLoopState
         (mkClient CircuitClosed 2 time_zero CircuitBreakerCooldown
                   CircuitBreakerThreshold false)
         0 1 2 [ServerErrorRetryDelay])
      = Returned resp err st /\
    (resp = None <-> err <> None) /\
    Z.of_nat (calls st) =
      retries429 st + retries5xx st
      + (match err with Some ErrCircuitOpen => 0 | _ => 1 end) /\
    Z.of_nat (List.length (waits st)) =
      retries429 st + retries5xx st
      + (match err with Some (ErrContext _) => 1 | _ => 0 end).
Proof.
  apply (doWithRetry_accounting NewClient get_request two_server_errors).
  reflexivity.
Defined.

(* ------------------------------------------------------------------ *)
(** ** The time a call spends waiting *)

Lemma rateLimitDelay_plain (k draw : Z) :
  0 <= k < MaxRateLimitRetries ->
  exists d : Z,
    rateLimitDelay k draw "" = Some d /\
    Second * 2 ^ k <= d /\ 2 * d < 3 * (Second * 2 ^ k).
Proof.
  intros Hk.
  destruct (rateLimitDelay_backoff k draw) as (j & Hj & Hd);
    [unfold MaxRateLimitRetries in Hk; lia|].
  exists (RateLimitBaseDelay * 2 ^ k + j). split; [apply Hd|].
  assert (Hp : 1 <= 2 ^ k).
  { change 1 with (2 ^ 0). apply Z.pow_le_mono_r; lia. }
  unfold RateLimitBaseDelay in *. rewrite Z.mul_1_l in *.
  unfold Second, Nanosecond in *. rewrite Z.mul_1_r in *.
  set (p := 2 ^ k) in *.
  assert (Hhalf : 2 * (1000000000 * p / 2) <= 1000000000 * p)
    by (apply Z.mul_div_le; lia).
  lia.
Qed.

Lemma small_retry_count (k : Z) :
  0 <= k < MaxRateLimitRetries -> k = 0 \/ k = 1 \/ k = 2.
Proof. unfold MaxRateLimitRetries. lia. Qed.

Lemma pow2_small (k : Z) :
  0 <= k <= 3 -> 2 ^ k = 1 \/ 2 ^ k = 2 \/ 2 ^ k = 4 \/ (k = 3 /\ 2 ^ k = 8).
Proof.
  intros Hk.
  assert (E : k = 0 \/ k = 1 \/ k = 2 \/ k = 3) by lia.
  destruct E as [ -> | [ -> | [ -> | -> ] ] ]; auto 10.
Qed.

Lemma backoff_total (k r5 tot : Z) :
  0 <= k <= 3 -> 0 <= r5 <= 1 ->
  tot <= 1500000000 * (2 ^ k - 1) + r5 * Second ->
  2 * tot <= 23 * Second.
Proof.
  intros Hk Hr Ht. unfold Second, Nanosecond in *.
  destruct (pow2_small k Hk) as [E|[E|[E|[_ E]]]]; rewrite E in Ht; lia.
Qed.

Lemma backoff_step (k r5 tot d : Z) :
  0 <= k < 3 -> 0 <= r5 <= 1 ->
  tot <= 1500000000 * (2 ^ k - 1) + r5 * Second ->
  Second * 2 ^ k <= d -> 2 * d < 3 * (Second * 2 ^ k) ->
  Second <= d /\
  d + tot <= 1500000000 * (2 ^ (k + 1) - 1) + r5 * Second /\
  2 * (d + tot) <= 23 * Second.
Proof.
  intros Hk Hr Ht Hlo Hhi.
  replace (2 ^ (k + 1)) with (2 * 2 ^ k) by (rewrite Z.pow_add_r by lia; lia).
  unfold Second, Nanosecond in *.
  destruct (pow2_small k) as [E|[E|[E|[E _]]]]; [lia| | | |lia];
    rewrite E in *; lia.
Qed.

Lemma total_wait_log (d : Z) (st : LoopState) :
  total_wait (log_wait d st) = d + total_wait st.
Proof. reflexivity. Qed.

Lemma iteration_waits (req : Request) (a : Attempt) (st : LoopState) :
  no_retry_after a ->
  waits_at_loop_head st ->
  match iteration req a st with
  | Panic => False
  | Continue st' =>
      waits_at_loop_head st' /\ (retry_budget st' < retry_budget st)%nat
  | Return _ _ st' => waits_at_return st'
  end.
Proof.
  intros Hplain (Hhead & Hall & Htot).
  pose proof (iteration_accounting req a st Hhead) as Hacc.
  destruct Hhead as (H429 & H5xx & _ & _).
  assert (H429' : 0 <= retries429 st <= 3) by exact H429.
  assert (H5xx' : 0 <= retries5xx st <= 1) by exact H5xx.
  assert (Hdone : waits_at_return st).
  { split; [exact Hall|].
    exact (backoff_total _ _ _ H429' H5xx' Htot). }
  assert (Hsame : forall st', waits st' = waits st -> waits_at_return st').
  { intros st' E. unfold waits_at_return, total_wait in *. rewrite E. exact Hdone. }
  destruct (snd (checkCircuitBreaker (now_check a) (client st))) as [e|] eqn:Hchk.
  { rewrite (iteration_rejected req a st e Hchk). exact Hdone. }
  rewrite (iteration_granted req a st Hchk) in *. cbv zeta in *.
  destruct (transport a) as [msg|resp] eqn:Ht; [apply Hsame; reflexivity|].
  destruct (status_bands (StatusCode resp)) as [Hs|[Hs|[Hs|Hs]]].
  - rewrite (handleResponse_success req a resp _ Hs). apply Hsame. reflexivity.
  - rewrite (handleResponse_429 req a resp _ Hs) in *.
    cbn [retries429 count_call set_client] in *.
    destruct (Z.leb_spec MaxRateLimitRetries (retries429 st)) as [|Hlt];
      [apply Hsame; reflexivity|].
    rewrite (Hplain resp Ht) in *.
    destruct (rateLimitDelay_plain (retries429 st) (rand_draw a))
      as (d & Hd & Hlo & Hhi); [lia|].
    rewrite Hd in *. unfold replay_and_wait in *.
    destruct (replay_error req a); [apply Hsame; reflexivity|].
    assert (Hk : 0 <= retries429 st < 3) by (split; [lia | exact Hlt]).
    destruct (backoff_step _ _ _ d Hk H5xx' Htot Hlo Hhi) as (Hone & Hnext & Hfin).
    destruct (ctx_done a).
    + split; [constructor; [exact Hone | exact Hall]|].
      rewrite total_wait_log. exact Hfin.
    + destruct Hacc as [Hacc Hdec]. split; [|exact Hdec].
      split; [exact Hacc|].
      split; [constructor; [exact Hone | exact Hall]|].
      change (total_wait (incr_retries429 (log_wait d ?s)))
        with (d + total_wait st).
      cbn [retries429 retries5xx incr_retries429 log_wait count_call set_client].
      rewrite (incr_retry _ 3) by lia. exact Hnext.
  - rewrite (handleResponse_5xx req a resp _ Hs) in *. cbv zeta in *.
    cbn [retries5xx count_call set_client] in *.
    destruct (negb (isIdempotent req) || (Max5xxRetries <=? retries5xx st)) eqn:Hterm;
      [apply Hsame; reflexivity|].
    apply orb_false_iff in Hterm. destruct Hterm as [_ Hlt].
    apply Z.leb_gt in Hlt.
    unfold replay_and_wait in *.
    destruct (replay_error req a); [apply Hsame; reflexivity|].
    assert (Hr : retries5xx st = 0) by (unfold Max5xxRetries in *; lia).
    assert (Hone : Second <= ServerErrorRetryDelay)
      by (unfold ServerErrorRetryDelay; lia).
    assert (Hnext : ServerErrorRetryDelay + total_wait st
                    <= 1500000000 * (2 ^ retries429 st - 1) + (0 + 1) * Second).
    { rewrite Hr in Htot. unfold ServerErrorRetryDelay. lia. }
    destruct (ctx_done a).
    + split; [constructor; [exact Hone | exact Hall]|].
      rewrite total_wait_log.
      refine (backoff_total (retries429 st) 1 _ H429' _ _); [lia|].
      exact Hnext.
    + destruct Hacc as [Hacc Hdec]. split; [|exact Hdec].
      split; [exact Hacc|].
      split; [constructor; [exact Hone | exact Hall]|].
      change (total_wait (incr_retries5xx (log_wait ServerErrorRetryDelay ?s)))
        with (ServerErrorRetryDelay + total_wait st).
      cbn [retries429 retries5xx incr_retries5xx log_wait count_call set_client].
      rewrite Hr, (incr_retry 0 1) by lia. exact Hnext.
  - rewrite (handleResponse_other req a resp _ Hs). apply Hsame. reflexivity.
Qed.

(** Property X3.  A call in which no response carries a [Retry-After] header never
    waits less than a second at a time, and the waits it starts add up to
    at most eleven and a half seconds. *)
Theorem doWithRetry_total_wait (c : Client) (req : Request) (env : list Attempt)
    (resp : option Response) (err : option error) (st : LoopState) :
  Forall no_retry_after env ->
  doWithRetry c req env = Some (Returned resp err st) ->
  Forall (fun w => Second <= w) (waits st) /\
  2 * total_wait st <= 23 * Second.
Proof.
  intros Hplain Hrun.
  assert (Hinit : waits_at_loop_head (initLoop c)).
  { split; [apply at_loop_head_init|]. split; [constructor|].
    unfold total_wait, Second, Nanosecond. cbn [waits initLoop fold_right
      retries429 retries5xx]. lia. }
  destruct (loop_partial req no_retry_after waits_at_loop_head
              (fun _ _ st' => waits_at_return st')
              (iteration_waits req)
              env (initLoop c) (Returned resp err st) Hplain Hinit Hrun)
    as (resp' & err' & st' & E & Hpost).
  inversion E; subst. exact Hpost.
Qed.

Lemma doWithRetry_total_wait_witness :
  Forall (fun w => Second <= w) [4000000000; 2000000000; 1000000000] /\
  2 * total_wait
        (mkLoopState NewClient 3 0 4 [4000000000; 2000000000; 1000000000])
    <= 23 * Second.
Proof.
  apply (doWithRetry_total_wait NewClient get_request
           [answered 0 429 ""; answered 0 429 ""; answered 0 429 ""; answered 0 429 ""]
           (Some (response_with 429 "")) None
           (mkLoopState NewClient 3 0 4 [4000000000; 2000000000; 1000000000])).
  - repeat constructor; intros resp [= <-]; reflexivity.
  - reflexivity.
Defined.

(* ------------------------------------------------------------------ *)
(** ** The breaker over time *)

Lemma time_Since_ge (now t d : Z) :
  int64_min < d <= int64_max ->
  (d <= time_Since now t <-> t + d <= now).
Proof.
  intros Hd. unfold time_Since, time_Sub.
  destruct (Z.ltb_spec int64_max (now - t)).
  - split; intros; lia.
  - destruct (Z.ltb_spec (now - t) int64_min); split; intros; lia.
Qed.

(** Property X4.  An [Open] breaker grants the permission check exactly from the
    instant [cbOpenedAt + cbCooldown] on, however far apart the clock
    reading and [cbOpenedAt] are: the saturation of [time.Since] never
    lets a request through early nor holds one back late. *)
Theorem open_breaker_grants_from_cooldown (now : Z) (c : Client) :
  cbState c = CircuitOpen ->
  int64_min < cbCooldown c <= int64_max ->
  (snd (checkCircuitBreaker now c) = None <-> cbOpenedAt c + cbCooldown c <= now) /\
  (snd (checkCircuitBreaker now c) = Some ErrCircuitOpen
   <-> now < cbOpenedAt c + cbCooldown c).
Proof.
  intros Hs Hd. unfold checkCircuitBreaker. rewrite Hs.
  pose proof (time_Since_ge now (cbOpenedAt c) (cbCooldown c) Hd) as Hge.
  destruct (Z.leb_spec (cbCooldown c) (time_Since now (cbOpenedAt c))) as [H|H];
    cbn [snd].
  - apply (proj1 Hge) in H.
    split; split; intros; try reflexivity; try discriminate; lia.
  - assert (Hn : ~ cbOpenedAt c + cbCooldown c <= now).
    { intros K. apply (proj2 Hge) in K. lia. }
    split; split; intros; try reflexivity; try discriminate; lia.
Qed.

Lemma open_breaker_grants_from_cooldown_witness :
  snd (checkCircuitBreaker (10 ^ 30)
         (mkClient CircuitOpen 5 0 CircuitBreakerCooldown 5 false)) = None
  <-> 0 + CircuitBreakerCooldown <= 10 ^ 30.
Proof.
  apply (open_breaker_grants_from_cooldown (10 ^ 30)
           (mkClient CircuitOpen 5 0 CircuitBreakerCooldown 5 false));
    [reflexivity | vm_compute; split; [reflexivity | discriminate]].
Defined.

(** Property X5.  A server error reported while the breaker is [HalfOpen], or while it
    is [Open] with the count at the threshold already, leaves it [Open]
    with [cbOpenedAt] set to the time of that error and the in-flight flag
    clear: the cooldown starts again, and for a probe this is so even when
    the count is below the threshold.  Until that cooldown has run, every
    permission check is rejected. *)
Theorem server_error_restarts_cooldown (now : Z) (c : Client) :
  cbState c = CircuitHalfOpen \/
  (cbState c = CircuitOpen /\
   cbThreshold c <= cbConsecutive5xx c + 1 <= int64_max /\
   int64_min <= cbConsecutive5xx c) ->
  let c' := record5xxError now c in
  cbState c' = CircuitOpen /\
  cbOpenedAt c' = now /\
  cbHalfOpenInFlight c' = false /\
  cbThreshold c' = cbThreshold c /\
  cbCooldown c' = cbCooldown c /\
  (forall t : Z,
     time_Since t now < cbCooldown c ->
     checkCircuitBreaker t c' = (c', Some ErrCircuitOpen)).
Proof.
  intros H c'.
  assert (Hc' : c' = mkClient CircuitOpen (incr (cbConsecutive5xx c)) now
                       (cbCooldown c) (cbThreshold c) false).
  { unfold c', record5xxError. destruct c as [s n o cd th f]. cbn in *.
    destruct H as [-> | (-> & Hn & Hm)]; [reflexivity|].
    cbn. rewrite incr_no_overflow by int64_lia.
    destruct (Z.leb_spec th (n + 1)); [reflexivity | lia]. }
  rewrite Hc'. cbn. repeat split.
  intros t Ht. unfold checkCircuitBreaker. cbn.
  destruct (Z.leb_spec (cbCooldown c) (time_Since t now)); [lia | reflexivity].
Qed.

Lemma server_error_restarts_cooldown_witness :
  cbState (record5xxError 77 (mkClient CircuitHalfOpen 0 0 CircuitBreakerCooldown 5 true))
    = CircuitOpen /\
  cbOpenedAt (record5xxError 77 (mkClient CircuitHalfOpen 0 0 CircuitBreakerCooldown 5 true))
    = 77.
Proof.
  destruct (server_error_restarts_cooldown 77
              (mkClient CircuitHalfOpen 0 0 CircuitBreakerCooldown 5 true))
    as (H1 & H2 & _); [left; reflexivity|].
  split; [exact H1 | exact H2].
Defined.

(* ------------------------------------------------------------------ *)
(** ** Invariants of the breaker *)

Lemma apply_op_ok (c : Client) (o : BreakerOp) :
  breaker_ok c ->
  breaker_ok (apply_op c o) /\
  cbThreshold (apply_op c o) = cbThreshold c /\
  cbCooldown (apply_op c o) = cbCooldown c.
Proof.
  destruct c as [s n o' cd th f]. unfold breaker_ok. cbn.
  intros (Hth & Hcl & Hfl).
  destruct o as [now| |now|]; cbn.
  - unfold checkCircuitBreaker; cbn.
    destruct s; cbn; [auto | destruct (cd <=? time_Since now o') | destruct f];
      cbn; repeat split; auto; try lia; try discriminate; try congruence.
  - repeat split; auto; try lia; try discriminate.
  - unfold record5xxError; cbn.
    destruct s; cbn.
    + specialize (Hcl eq_refl).
      rewrite incr_no_overflow by int64_lia.
      destruct (Z.leb_spec th (n + 1)); cbn;
        repeat split; auto; try lia; try discriminate.
    + destruct (th <=? incr n); cbn;
        repeat split; auto; try lia; try discriminate.
    + repeat split; auto; try lia; try discriminate.
  - repeat split; auto; try lia; try discriminate.
Qed.

(** Property X6.  Whatever sequence of permission checks, outcome reports and resets is
    applied to a breaker that is [Closed] with a zero count, a clear flag
    and a positive threshold (as [NewClient] makes it), in whatever order
    concurrent callers interleave them: the threshold and the cooldown
    are never changed, the breaker is [Closed] only with a count below
    the threshold, and the in-flight flag is set only while it is
    [HalfOpen]. *)
Theorem breaker_invariants (ops : list BreakerOp) (c : Client) :
  cbState c = CircuitClosed ->
  cbConsecutive5xx c = 0 ->
  cbHalfOpenInFlight c = false ->
  1 <= cbThreshold c <= int64_max ->
  let c' := apply_ops ops c in
  cbThreshold c' = cbThreshold c /\
  cbCooldown c' = cbCooldown c /\
  (cbState c' = CircuitClosed -> 0 <= cbConsecutive5xx c' < cbThreshold c) /\
  (cbHalfOpenInFlight c' = true -> cbState c' = CircuitHalfOpen).
Proof.
  intros Hs Hn Hf Hth.
  assert (Hok : breaker_ok c).
  { unfold breaker_ok. rewrite Hn, Hf. repeat split; try lia; discriminate. }
  clear Hs Hn Hf Hth. unfold apply_ops.
  assert (Hgen : forall c0, breaker_ok c0 ->
            breaker_ok (fold_left apply_op ops c0) /\
            cbThreshold (fold_left apply_op ops c0) = cbThreshold c0 /\
            cbCooldown (fold_left apply_op ops c0) = cbCooldown c0).
  { induction ops as [|o ops IH]; intros c0 H0; [auto|].
    cbn [fold_left].
    destruct (apply_op_ok c0 o H0) as (H1 & H2 & H3).
    destruct (IH _ H1) as (I1 & I2 & I3).
    split; [exact I1|]. split; congruence. }
  destruct (Hgen c Hok) as ((_ & Hcl & Hfl) & H2 & H3).
  cbv zeta. split; [exact H2|]. split; [exact H3|].
  split; [intros K; rewrite <- H2; apply Hcl; exact K | exact Hfl].
Qed.

Lemma breaker_invariants_witness :
  cbThreshold (apply_ops [Op5xx 1; Op5xx 2; OpCheck 3; OpSuccess; OpReset] NewClient)
    = cbThreshold NewClient.
Proof.
  apply (breaker_invariants [Op5xx 1; Op5xx 2; OpCheck 3; OpSuccess; OpReset]
           NewClient);
    [reflexivity | reflexivity | reflexivity | vm_compute; split; discriminate].
Defined.

(* ------------------------------------------------------------------ *)
(** ** What calls do to the breaker *)

Lemma apply_ops_app (ops1 ops2 : list BreakerOp) (c : Client) :
  apply_ops (ops1 ++ ops2) c = apply_ops ops2 (apply_ops ops1 c).
Proof. unfold apply_ops. apply fold_left_app. Qed.

Lemma iteration_ops (req : Request) (a : Attempt) (st st' : LoopState) :
  result_state (iteration req a st) = Some st' ->
  exists ops : list BreakerOp,
    client st' = apply_ops ops (client st) /\ ~ In OpReset ops.
Proof.
  destruct (snd (checkCircuitBreaker (now_check a) (client st))) as [e|] eqn:Hchk.
  { rewrite (iteration_rejected req a st e Hchk). intros [= <-].
    exists []. split; [reflexivity | intros []]. }
  rewrite (iteration_granted req a st Hchk). cbv zeta.
  set (c1 := fst (checkCircuitBreaker (now_check a) (client st))).
  assert (Hone : forall s, client s = c1 ->
            exists ops, client s = apply_ops ops (client st) /\ ~ In OpReset ops).
  { intros s ->. exists [OpCheck (now_check a)]. split; [reflexivity|].
    intros [H|[]]; discriminate. }
  destruct (transport a) as [msg|resp].
  { intros [= <-]. apply Hone. reflexivity. }
  destruct (status_bands (StatusCode resp)) as [Hs|[Hs|[Hs|Hs]]].
  - rewrite (handleResponse_success req a resp _ Hs). intros [= <-].
    exists [OpCheck (now_check a); OpSuccess]. split; [reflexivity|].
    intros [H|[H|[]]]; discriminate.
  - rewrite (handleResponse_429 req a resp _ Hs).
    destruct (MaxRateLimitRetries <=? _); [intros [= <-]; apply Hone; reflexivity|].
    destruct (rateLimitDelay _ _ _) as [d|]; [|discriminate].
    destruct (replay_and_wait_state req a d incr_retries429
                (count_call (set_client c1 st))) as (s & E & Hc);
      [reflexivity|].
    rewrite E. intros [= <-]. apply Hone. exact Hc.
  - rewrite (handleResponse_5xx req a resp _ Hs). cbv zeta.
    assert (Htwo : forall s,
              client s = record5xxError (now_record a) c1 ->
              exists ops, client s = apply_ops ops (client st) /\ ~ In OpReset ops).
    { intros s ->. exists [OpCheck (now_check a); Op5xx (now_record a)].
      split; [reflexivity|]. intros [H|[H|[]]]; discriminate. }
    destruct (negb (isIdempotent req) || _);
      [intros [= <-]; apply Htwo; reflexivity|].
    match goal with |- context [replay_and_wait req a ?d ?f ?s] =>
      destruct (replay_and_wait_state req a d f s) as (s' & E & Hc);
        [reflexivity|]
    end.
    rewrite E. intros [= <-]. apply Htwo. exact Hc.
  - rewrite (handleResponse_other req a resp _ Hs). intros [= <-].
    apply Hone. reflexivity.
Qed.

Lemma loop_ops (req : Request) : forall (env : list Attempt) (st : LoopState)
    (resp : option Response) (err : option error) (st' : LoopState),
  loop req env st = Some (Returned resp err st') ->
  exists ops : list BreakerOp,
    client st' = apply_ops ops (client st) /\ ~ In OpReset ops.
Proof.
  induction env as [|a env IH]; intros st resp err st' Hrun; [discriminate|].
  rewrite loop_step in Hrun.
  pose proof (iteration_ops req a st) as Hstep.
  destruct (iteration req a st) as [r e s|s|]; [| |discriminate].
  - inversion Hrun; subst. apply Hstep. reflexivity.
  - destruct (Hstep s eq_refl) as (ops1 & E1 & N1).
    destruct (IH s resp err st' Hrun) as (ops2 & E2 & N2).
    exists (ops1 ++ ops2). rewrite apply_ops_app, <- E1. split; [exact E2|].
    intros H. apply in_app_or in H. tauto.
Qed.

Lemma apply_ops_ok (ops : list BreakerOp) : forall c : Client,
  breaker_ok c ->
  breaker_ok (apply_ops ops c) /\
  cbThreshold (apply_ops ops c) = cbThreshold c /\
  cbCooldown (apply_ops ops c) = cbCooldown c.
Proof.
  unfold apply_ops.
  induction ops as [|o ops IH]; intros c H0; [auto|].
  cbn [fold_left].
  destruct (apply_op_ok c o H0) as (H1 & H2 & H3).
  destruct (IH _ H1) as (I1 & I2 & I3).
  split; [exact I1|]. split; congruence.
Qed.

Lemma client_after_ops (c : Client) (req : Request) (env : list Attempt) :
  exists ops : list BreakerOp,
    client_after c (doWithRetry c req env) = apply_ops ops c /\ ~ In OpReset ops.
Proof.
  unfold doWithRetry.
  destruct (loop req env (initLoop c)) as [[resp err st|]|] eqn:Hrun;
    try (exists []; split; [reflexivity | intros []]).
  apply (loop_ops req env (initLoop c) resp err st Hrun).
Qed.

(** Property X7.  Logical calls made one after the other on a client change its breaker
    only through permission checks and outcome reports, never through a
    reset; they never change the threshold or the cooldown, they leave the
    breaker [Closed] only with a count below the threshold, and they leave
    the in-flight flag set only while it is [HalfOpen]. *)
Theorem run_calls_keeps_breaker_invariants (cs : list (Request * list Attempt))
    (c : Client) :
  breaker_ok c ->
  breaker_ok (run_calls c cs) /\
  cbThreshold (run_calls c cs) = cbThreshold c /\
  cbCooldown (run_calls c cs) = cbCooldown c /\
  exists ops : list BreakerOp,
    run_calls c cs = apply_ops ops c /\ ~ In OpReset ops.
Proof.
  revert c. induction cs as [|[req env] cs IH]; intros c Hok.
  - split; [exact Hok|]. split; [reflexivity|]. split; [reflexivity|].
    exists []. split; [reflexivity | intros []].
  - cbn [run_calls].
    destruct (client_after_ops c req env) as (ops1 & E1 & N1).
    destruct (apply_ops_ok ops1 c Hok) as (H1 & H2 & H3).
    rewrite <- E1 in H1, H2, H3.
    destruct (IH _ H1) as (I1 & I2 & I3 & ops2 & E2 & N2).
    split; [exact I1|]. split; [congruence|]. split; [congruence|].
    exists (ops1 ++ ops2). rewrite apply_ops_app, <- E1. split; [exact E2|].
    intros H. apply in_app_or in H. tauto.
Qed.

Lemma run_calls_keeps_breaker_invariants_witness :
  breaker_ok
    (run_calls NewClient
       [(get_request, two_server_errors); (get_request, two_server_errors);
        (get_request, two_server_errors); (get_request, four_rate_limits)]).
Proof.
  apply (run_calls_keeps_breaker_invariants
           [(get_request, two_server_errors); (get_request, two_server_errors);
            (get_request, two_server_errors); (get_request, four_rate_limits)]
           NewClient).
  unfold breaker_ok. cbn. repeat split; try discriminate; try lia.
Defined.

(** Property X8.  From a [Closed] breaker, any number of calls that are each answered at
    once with a 2xx status or a 4xx status other than 429 leaves the
    breaker [Closed] with a zero error count: client errors never open
    it, however many there are. *)
Theorem client_errors_never_open (cs : list (Request * list Attempt)) (c : Client) :
  cbState c = CircuitClosed ->
  Forall answered_without_fault cs ->
  cbState (run_calls c cs) = CircuitClosed /\
  (cs <> [] ->
   cbConsecutive5xx (run_calls c cs) = 0 /\
   cbHalfOpenInFlight (run_calls c cs) = false).
Proof.
  revert c. induction cs as [|[req env] cs IH]; intros c Hs Hall.
  - split; [exact Hs | congruence].
  - inversion Hall as [|? ? (a & rest & resp & Henv & Ht & Hcode) Hall']; subst.
    cbn [snd] in Henv. subst env. cbn [run_calls].
    assert (E : client_after c (doWithRetry c req (a :: rest)) = recordSuccess c).
    { unfold doWithRetry. rewrite loop_step.
      rewrite (iteration_granted req a (initLoop c))
        by (cbn [client initLoop];
            rewrite (checkCircuitBreaker_closed _ _ Hs); reflexivity).
      rewrite Ht. cbv zeta.
      rewrite (handleResponse_success req a resp _ Hcode).
      cbn [client_after client set_client count_call initLoop].
      rewrite (checkCircuitBreaker_closed _ _ Hs). reflexivity. }
    rewrite E.
    destruct (IH (recordSuccess c) eq_refl Hall') as [I1 I2].
    split; [exact I1|]. intros _.
    destruct cs as [|call cs']; [split; reflexivity|].
    apply I2. discriminate.
Qed.

Lemma client_errors_never_open_witness :
  cbState
    (run_calls (mkClient CircuitClosed 4 0 CircuitBreakerCooldown 5 false)
       [(get_request, [answered 0 404 ""]); (get_request, [answered 0 403 ""])])
  = CircuitClosed.
Proof.
  apply (client_errors_never_open
           [(get_request, [answered 0 404 ""]); (get_request, [answered 0 403 ""])]
           (mkClient CircuitClosed 4 0 CircuitBreakerCooldown 5 false));
    [reflexivity|].
  repeat constructor; eexists _, _, _; (split; [reflexivity|]);
    (split; [reflexivity|]); right; cbn; lia.
Defined.

(* ------------------------------------------------------------------ *)
(** ** Probes that report nothing *)

Lemma half_open_in_flight_rejects (c : Client) (now : Z) :
  cbState c = CircuitHalfOpen -> cbHalfOpenInFlight c = true ->
  checkCircuitBreaker now c = (c, Some ErrCircuitOpen).
Proof. unfold checkCircuitBreaker. intros -> ->. reflexivity. Qed.

Lemma transport_failure_client (c : Client) (req : Request) (a : Attempt)
    (env : list Attempt) (msg : string) :
  transport a = inl msg ->
  snd (checkCircuitBreaker (now_check a) c) = None ->
  client_after c (doWithRetry c req (a :: env))
    = fst (checkCircuitBreaker (now_check a) c).
Proof.
  intros Ht Hok. unfold doWithRetry. rewrite loop_step.
  rewrite (iteration_granted req a (initLoop c) Hok), Ht. reflexivity.
Qed.

(** Property X9.  Two probes that end in a transport error wedge the breaker.  From
    [Open] with the cooldown elapsed, a call whose round trip fails leaves
    the breaker [HalfOpen]; a second such call sets the in-flight flag,
    which nothing clears because neither call reports an outcome.  From
    then on every permission check is rejected at every clock reading,
    every call returns the circuit-open error without a transport call,
    and no sequence of calls changes the breaker again; a permission
    check is granted again after [ResetCircuitBreaker]. *)
Theorem abandoned_probes_wedge_breaker (c : Client) (req1 req2 : Request)
    (a1 a2 : Attempt) (env1 env2 : list Attempt) (msg1 msg2 : string) :
  cbState c = CircuitOpen ->
  cbHalfOpenInFlight c = false ->
  cbCooldown c <= time_Since (now_check a1) (cbOpenedAt c) ->
  transport a1 = inl msg1 ->
  transport a2 = inl msg2 ->
  let c2 := run_calls c [(req1, a1 :: env1); (req2, a2 :: env2)] in
  c2 = set_cbHalfOpenInFlight true (set_cbState CircuitHalfOpen c) /\
  (forall now : Z, checkCircuitBreaker now c2 = (c2, Some ErrCircuitOpen)) /\
  (forall (req : Request) (a : Attempt) (env : list Attempt),
     doWithRetry c2 req (a :: env)
       = Some (Returned None (Some ErrCircuitOpen) (initLoop c2))) /\
  (forall cs : list (Request * list Attempt), run_calls c2 cs = c2) /\
  (forall now : Z,
     checkCircuitBreaker now (ResetCircuitBreaker c2)
       = (ResetCircuitBreaker c2, None)).
Proof.
  intros Hs Hf Hcool Ht1 Ht2 c2.
  assert (E1 : checkCircuitBreaker (now_check a1) c
               = (set_cbState CircuitHalfOpen c, None)).
  { unfold checkCircuitBreaker. rewrite Hs.
    destruct (Z.leb_spec (cbCooldown c) (time_Since (now_check a1) (cbOpenedAt c)));
      [reflexivity | lia]. }
  assert (E2 : checkCircuitBreaker (now_check a2) (set_cbState CircuitHalfOpen c)
               = (set_cbHalfOpenInFlight true (set_cbState CircuitHalfOpen c), None)).
  { unfold checkCircuitBreaker. cbn. rewrite Hf. reflexivity. }
  assert (Hc2 : c2 = set_cbHalfOpenInFlight true (set_cbState CircuitHalfOpen c)).
  { unfold c2. cbn [run_calls].
    rewrite (transport_failure_client c req1 a1 env1 msg1 Ht1)
      by (rewrite E1; reflexivity).
    rewrite E1. cbn [fst].
    rewrite (transport_failure_client _ req2 a2 env2 msg2 Ht2)
      by (rewrite E2; reflexivity).
    rewrite E2. reflexivity. }
  assert (Hrej : forall now, checkCircuitBreaker now c2 = (c2, Some ErrCircuitOpen)).
  { intros now. apply half_open_in_flight_rejects; rewrite Hc2; reflexivity. }
  assert (Hcall : forall req a env,
            doWithRetry c2 req (a :: env)
              = Some (Returned None (Some ErrCircuitOpen) (initLoop c2))).
  { intros req a env. unfold doWithRetry. rewrite loop_step.
    rewrite (iteration_rejected req a (initLoop c2) ErrCircuitOpen)
      by (cbn [client initLoop]; rewrite Hrej; reflexivity).
    reflexivity. }
  split; [exact Hc2|]. split; [exact Hrej|]. split; [exact Hcall|]. split.
  - intros cs. induction cs as [|[req env] cs IH]; [reflexivity|].
    cbn [run_calls].
    destruct env as [|a env]; [exact IH|].
    rewrite Hcall. exact IH.
  - intros now. apply checkCircuitBreaker_closed. reflexivity.
Qed.

Lemma abandoned_probes_wedge_breaker_witness :
  doWithRetry
    (run_calls (mkClient CircuitOpen 5 0 CircuitBreakerCooldown 5 false)
       [(get_request, [mkAttempt (30 * Second) (inl "reset"%string) 0 0 None None]);
        (get_request, [mkAttempt (31 * Second) (inl "reset"%string) 0 0 None None])])
    get_request [answered (10 ^ 30) 200 ""]
  = Some (Returned None (Some ErrCircuitOpen)
            (initLoop
               (run_calls (mkClient CircuitOpen 5 0 CircuitBreakerCooldown 5 false)
                  [(get_request,
                    [mkAttempt (30 * Second) (inl "reset"%string) 0 0 None None]);
                   (get_request,
                    [mkAttempt (31 * Second) (inl "reset"%string) 0 0 None None])]))).
Proof.
  apply (abandoned_probes_wedge_breaker
           (mkClient CircuitOpen 5 0 CircuitBreakerCooldown 5 false)
           get_request get_request
           (mkAttempt (30 * Second) (inl "reset"%string) 0 0 None None)
           (mkAttempt (31 * Second) (inl "reset"%string) 0 0 None None)
           [] [] "reset" "reset");
    [reflexivity | reflexivity | vm_compute; discriminate | reflexivity | reflexivity].
Defined.

(* ------------------------------------------------------------------ *)
(** ** Statuses outside the handled bands *)

Lemma checkCircuitBreaker_keeps_count (now : Z) (c : Client) :
  cbConsecutive5xx (fst (checkCircuitBreaker now c)) = cbConsecutive5xx c.
Proof.
  unfold checkCircuitBreaker.
  destruct (cbState c);
    [ | destruct (cbCooldown c <=? _) | destruct (cbHalfOpenInFlight c) ];
    reflexivity.
Qed.

(** Property X10.  A response whose status is below 200 or in the 3xx range is returned
    at once with a nil error and reported to the breaker neither as a
    success nor as a server error: the consecutive-error count is what it
    was, a [HalfOpen] breaker stays [HalfOpen], and no retry or wait is
    made. *)
Theorem unhandled_status_passes_through (req : Request) (a : Attempt)
    (env : list Attempt) (st : LoopState) (resp : Response) :
  transport a = inr resp ->
  StatusCode resp < 200 \/ 300 <= StatusCode resp < 400 ->
  snd (checkCircuitBreaker (now_check a) (client st)) = None ->
  exists st' : LoopState,
    loop req (a :: env) st = Some (Returned (Some resp) None st') /\
    client st' = fst (checkCircuitBreaker (now_check a) (client st)) /\
    cbConsecutive5xx (client st') = cbConsecutive5xx (client st) /\
    (cbState (client st) = CircuitHalfOpen ->
     cbState (client st') = CircuitHalfOpen /\
     cbHalfOpenInFlight (client st') = true) /\
    retries429 st' = retries429 st /\
    retries5xx st' = retries5xx st /\
    calls st' = S (calls st) /\
    waits st' = waits st.
Proof.
  intros Ht Hcode Hok.
  rewrite loop_step, (iteration_granted req a st Hok), Ht. cbv zeta.
  rewrite (handleResponse_other req a resp _ Hcode).
  eexists. split; [reflexivity|].
  cbn [client retries429 retries5xx calls waits count_call set_client].
  split; [reflexivity|]. split; [apply checkCircuitBreaker_keeps_count|].
  split; [|repeat split].
  intros Hs. revert Hok. unfold checkCircuitBreaker. rewrite Hs.
  destruct (cbHalfOpenInFlight (client st)); cbn; [discriminate | auto].
Qed.

Lemma unhandled_status_passes_through_witness :
  exists st' : LoopState,
    loop get_request [answered 0 304 ""]
         (initLoop (mkClient CircuitClosed 4 0 CircuitBreakerCooldown 5 false))
      = Some (Returned (Some (response_with 304 "")) None st') /\
    client st' =
      fst (checkCircuitBreaker 0
             (mkClient CircuitClosed 4 0 CircuitBreakerCooldown 5 false)) /\
    cbConsecutive5xx (client st') = 4.
Proof.
  destruct (unhandled_status_passes_through get_request (answered 0 304 "") []
              (initLoop (mkClient CircuitClosed 4 0 CircuitBreakerCooldown 5 false))
              (response_with 304 ""))
    as (st' & E & Hc & Hn & _);
    [reflexivity | right; cbn; lia | reflexivity |].
  exists st'. split; [exact E|]. split; [exact Hc | exact Hn].
Defined.

(* ------------------------------------------------------------------ *)
(** ** The text of a classified error *)

(** Property X11.  When the body of an error response does not decode, the text of the
    classified error is the body itself, byte for byte, unless the body
    looks like an HTML page, in which case it is the fixed [not_found]
    text; in particular an empty body gives an empty error text. *)
Theorem classified_error_text (dec : string -> option errorResponse)
    (body : string) :
  json_Unmarshal dec body = None ->
  exists e : APIError,
    ParseAPIError dec body = Some e /\
    APIError_Error e =
      (if looksLikeHTML body
       then "not_found: Resource not found or endpoint does not exist"%string
       else body) /\
    (body = EmptyString -> APIError_Error e = EmptyString).
Proof.
  intros Hfail. unfold ParseAPIError. rewrite Hfail.
  destruct (looksLikeHTML body) eqn:Hh.
  - eexists. split; [reflexivity|]. split; [reflexivity|].
    intros ->. discriminate.
  - eexists. split; [reflexivity|]. split; [reflexivity|].
    intros ->. reflexivity.
Qed.

Lemma classified_error_text_witness :
  exists e : APIError,
    ParseAPIError (fun _ => None) "upstream timed out" = Some e /\
    APIError_Error e = "upstream timed out"%string.
Proof.
  destruct (classified_error_text (fun _ => None) "upstream timed out")
    as (e & E & Htxt & _); [reflexivity|].
  exists e. split; [exact E | exact Htxt].
Defined.

(* ------------------------------------------------------------------ *)
(** ** Request identifiers *)

Lemma hexchar_digit (n : nat) :
  (n < 16)%nat ->
  In (hexchar n) (list_ascii_of_string hextable) /\ hexval (hexchar n) = n.
Proof.
  intros H.
  do 16 (destruct n as [|n]; [split; [cbn; tauto | reflexivity]|]).
  lia.
Qed.

Lemma nibbles_bounded (v : ascii) :
  (nat_of_ascii v / 16 < 16)%nat /\ (nat_of_ascii v mod 16 < 16)%nat.
Proof.
  pose proof (nat_ascii_bounded v) as Hb. split.
  - apply Nat.Div0.div_lt_upper_bound. lia.
  - apply Nat.mod_upper_bound. lia.
Qed.

Lemma hex_byte_injective (v w : ascii) :
  hexchar (nat_of_ascii v / 16) = hexchar (nat_of_ascii w / 16) ->
  hexchar (nat_of_ascii v mod 16) = hexchar (nat_of_ascii w mod 16) ->
  v = w.
Proof.
  intros Hhi Hlo.
  destruct (nibbles_bounded v) as [Hv1 Hv2].
  destruct (nibbles_bounded w) as [Hw1 Hw2].
  apply (f_equal hexval) in Hhi. apply (f_equal hexval) in Hlo.
  rewrite !(proj2 (hexchar_digit _ Hv1)), !(proj2 (hexchar_digit _ Hw1)) in Hhi.
  rewrite !(proj2 (hexchar_digit _ Hv2)), !(proj2 (hexchar_digit _ Hw2)) in Hlo.
  rewrite <- (ascii_nat_embedding v), <- (ascii_nat_embedding w).
  f_equal.
  rewrite (Nat.div_mod_eq (nat_of_ascii v) 16), (Nat.div_mod_eq (nat_of_ascii w) 16).
  congruence.
Qed.

(** Property X12.  A request identifier is eight characters long, each of them one of
    [0123456789abcdef], and buffers that differ in any byte give
    different identifiers. *)
Theorem generateRequestID_hex (b0 b1 b2 b3 : ascii) :
  String.length (generateRequestID b0 b1 b2 b3) = 8%nat /\
  (forall ch : ascii,
     In ch (list_ascii_of_string (generateRequestID b0 b1 b2 b3)) ->
     In ch (list_ascii_of_string hextable)) /\
  (forall b0' b1' b2' b3' : ascii,
     generateRequestID b0 b1 b2 b3 = generateRequestID b0' b1' b2' b3' ->
     b0 = b0' /\ b1 = b1' /\ b2 = b2' /\ b3 = b3').
Proof.
  split; [reflexivity|]. split.
  - intros ch. unfold generateRequestID. cbn [hex_EncodeToString list_ascii_of_string].
    intros H.
    repeat (destruct H as [<- | H];
            [apply hexchar_digit; apply nibbles_bounded|]).
    destruct H.
  - intros b0' b1' b2' b3'. unfold generateRequestID.
    cbn [hex_EncodeToString]. intros H.
    injection H as H0 H0' H1 H1' H2 H2' H3 H3'.
    repeat split; apply hex_byte_injective; assumption.
Qed.

(* ------------------------------------------------------------------ *)
(** ** Credential keys *)

Lemma substring_all (s : string) : String.substring 0 (String.length s) s = s.
Proof. induction s as [|ch s IH]; cbn; [reflexivity | rewrite IH; reflexivity]. Qed.

Lemma drop_0 (s : string) : drop 0 s = s.
Proof. unfold drop. rewrite Nat.sub_0_r. apply substring_all. Qed.

Lemma drop_cons (n : nat) (ch : ascii) (s : string) :
  drop (S n) (String ch s) = drop n s.
Proof. reflexivity. Qed.

Lemma prefix_split (p : string) : forall s : string,
  HasPrefix s p = true -> s = (p ++ drop (String.length p) s)%string.
Proof.
  unfold HasPrefix.
  induction p as [|a p IH]; intros s H.
  - cbn [String.length append]. rewrite drop_0. reflexivity.
  - destruct s as [|b s]; [discriminate|]. cbn [String.prefix] in H.
    destruct (ascii_dec a b) as [->|]; [|discriminate].
    cbn [String.length append]. rewrite drop_cons, <- (IH s H). reflexivity.
Qed.

Lemma prefix_append (p s : string) : HasPrefix (p ++ s) p = true.
Proof.
  unfold HasPrefix. induction p as [|a p IH]; cbn.
  - destruct s; reflexivity.
  - destruct (ascii_dec a a); [exact IH | congruence].
Qed.

Lemma drop_append (p s : string) : drop (String.length p) (p ++ s) = s.
Proof.
  induction p as [|a p IH]; cbn [String.length append].
  - apply drop_0.
  - rewrite drop_cons. exact IH.
Qed.

(** Property X13.  [ParseCredentialKey] undoes [credentialKey]: the key made for a name
    parses back to that name, unless the name is empty or all white
    space, in which case the key is refused; and every key that parses is
    the key of the name it parses to. *)
Theorem credential_key_round_trip (name : string) :
  (String.eqb (TrimSpace name) "" = false ->
   ParseCredentialKey (credentialKey name) = (name, true)) /\
  (String.eqb (TrimSpace name) "" = true ->
   ParseCredentialKey (credentialKey name) = (EmptyString, false)) /\
  (forall k : string,
     ParseCredentialKey k = (name, true) ->
     k = credentialKey name /\ String.eqb (TrimSpace name) "" = false).
Proof.
  assert (Hparse : ParseCredentialKey (credentialKey name) =
            if String.eqb (TrimSpace name) "" then (EmptyString, false)
            else (name, true)).
  { unfold ParseCredentialKey, credentialKey, TrimPrefix.
    rewrite prefix_append. cbn [negb]. rewrite drop_append. reflexivity. }
  split; [|split].
  - intros H. rewrite Hparse, H. reflexivity.
  - intros H. rewrite Hparse, H. reflexivity.
  - intros k. unfold ParseCredentialKey, TrimPrefix.
    destruct (HasPrefix k credentialPrefix) eqn:Hp; cbn [negb]; [|discriminate].
    destruct (String.eqb (TrimSpace (drop (String.length credentialPrefix) k)) "")
      eqn:Hblank; [discriminate|].
    intros [= <-]. split; [|exact Hblank].
    unfold credentialKey. apply prefix_split. exact Hp.
Qed.

Lemma credential_key_round_trip_witness :
  ParseCredentialKey (credentialKey "production") = ("production"%string, true).
Proof.
  apply (credential_key_round_trip "production"). reflexivity.
Defined.

(* ------------------------------------------------------------------ *)
(** ** Credential resolution *)



(* ------------------------------------------------------------------ *)
(** ** Successes between server errors *)

(** Property X15.  A success restarts the count from any state: whatever
    the breaker was before [recordSuccess] ([Open], [HalfOpen], any count),
    fewer than [cbThreshold] server errors reported after it leave the
    breaker [Closed], with a count equal to their number and the in-flight
    flag clear.  Only [cbThreshold] server errors in a row open it. *)
Theorem success_restarts_count (c : Client) (ts : list Z) :
  cbThreshold c <= int64_max ->
  Z.of_nat (List.length ts) < cbThreshold c ->
  let c' := record5xxErrors ts (recordSuccess c) in
  cbState c' = CircuitClosed /\
  cbConsecutive5xx c' = Z.of_nat (List.length ts) /\
  cbHalfOpenInFlight c' = false /\
  forall now : Z, checkCircuitBreaker now c' = (c', None).
Proof.
  intros Hmax Hlen c'.
  assert (Hbelow : cbState c' = CircuitClosed /\
                   cbConsecutive5xx c' = 0 + Z.of_nat (List.length ts)).
  { destruct (record5xxErrors_below ts (recordSuccess c)) as (H1 & H2 & _);
      [reflexivity | cbn; lia | exact Hlen | exact Hmax |].
    split; [exact H1 | exact H2]. }
  destruct Hbelow as [H1 H2]. rewrite Z.add_0_l in H2.
  split; [exact H1|]. split; [exact H2|]. split.
  - unfold c'. clear. revert c.
    induction ts as [|t ts IH] using rev_ind; intros c; [reflexivity|].
    rewrite record5xxErrors_app.
    change (record5xxErrors [t] ?d) with (record5xxError t d).
    unfold record5xxError. cbn.
    destruct (cbState _); [destruct (_ <=? _) | destruct (_ <=? _) | ]; reflexivity.
  - intros now. apply checkCircuitBreaker_closed. exact H1.
Qed.

Lemma success_restarts_count_witness :
  cbState
    (record5xxErrors [1; 2; 3; 4]
       (recordSuccess (mkClient CircuitOpen 9 0 CircuitBreakerCooldown 5 false)))
  = CircuitClosed.
Proof.
  apply (success_restarts_count
           (mkClient CircuitOpen 9 0 CircuitBreakerCooldown 5 false) [1; 2; 3; 4]);
    [vm_compute; discriminate | cbn; lia].
Defined.
